(** * Real Estate Deal Analyzer: the calculation core

    A shallow embedding of the three helper functions of
    [real_estate_analyzer.py] ([calculate_seller_net], [calculate_buyer_costs],
    [calculate_flip_profit]) and of the breakeven computation of the
    buyer/flip tab, followed by the properties the specification states
    about them.

    The Python functions are written over whatever numbers they are handed
    and mix them with [float] literals.  The embedding therefore writes each
    function once, over an interface [PyNum] of the arithmetic the source
    uses, and runs it on these carriers:

    - [binary64]: IEEE-754 double precision, round to nearest even, which is
      what CPython's [float] is.  Python's [int] inputs and literals convert
      to it on their first meeting with a [float]; every integer of
      magnitude below 2^53 converts exactly, and those are the integers the
      number inputs of the page can deliver, so an integer is represented
      by its [float] value.  Addition, subtraction and multiplication of
      floats raise nothing in Python (they overflow to infinity); division
      raises [ZeroDivisionError] on a zero divisor and nothing else.
    - [exact]: rational arithmetic, in which a literal such as [0.03] means
      3/100.  This is the arithmetic the specification's formulas are
      written in.
    - [rounded rnd]: rational arithmetic in which every operation is
      followed by a rounding [rnd], to tell which properties of [exact]
      survive rounding. *)

From Stdlib Require Import ZArith QArith Qround Qfield Lia Lqa Floats Bool List.
From Stdlib Require String.
Import ListNotations.

(** ** Exceptions and results *)

(** The only exception the arithmetic of the calculators can raise. *)
Inductive exn : Set :=
| ZeroDivisionError.

Inductive result (A : Type) : Type :=
| Ok (a : A)
| Raise (e : exn).

Arguments Ok {A} a.
Arguments Raise {A} e.

Definition bind {A B : Type} (r : result A) (k : A -> result B) : result B :=
  match r with
  | Ok a => k a
  | Raise e => Raise e
  end.

Declare Scope py_scope.
Delimit Scope py_scope with py.

Notation "x <- r ;; k" := (bind r (fun x => k))
  (at level 61, r at next level, right associativity) : py_scope.


(** A keyword argument with a default value: [None] is the call that omits
    it. *)
Definition keyword {A : Type} (default : A) (given : option A) : A :=
  match given with
  | Some a => a
  | None => default
  end.

(** ** The arithmetic of the source *)

(** [lit q] is the value of the numeric literal that denotes [q] in the
    source text; [is_zero] is the test [/] performs on its divisor. *)
Class PyNum (num : Type) : Type := {
  lit : Q -> num;
  add : num -> num -> num;
  sub : num -> num -> num;
  mul : num -> num -> num;
  quot : num -> num -> num;
  is_zero : num -> bool
}.

(** Python's true division: [ZeroDivisionError] on a zero divisor. *)
Definition div {num : Type} `{PyNum num} (x y : num) : result num :=
  if is_zero y then Raise ZeroDivisionError else Ok (quot x y).

Infix "+" := add : py_scope.
Infix "-" := sub : py_scope.
Infix "*" := mul : py_scope.
Infix "/" := div : py_scope.

(** ** The result records (the dictionaries the functions return) *)

Set Implicit Arguments.

Module SellerNet.
Record t (num : Type) : Type := mk {
  price : num;
  listing_agent : num;
  buyer_agent : num;
  prep_costs : num;
  holding_costs : num;
  transaction_costs : num;
  total_costs : num;
  net : num
}.
End SellerNet.

Module BuyerCosts.
Record t (num : Type) : Type := mk {
  purchase_price : num;
  down_payment : num;
  loan_amount : num;
  closing_costs : num;
  seller_agent : num;
  cash_to_acquire : num;
  interest : num;
  holding_costs : num;
  remodel_cost : num;
  total_cash : num
}.
End BuyerCosts.

Module FlipProfit.
Record t (num : Type) : Type := mk {
  sell_price : num;
  commission : num;
  transfer_fees : num;
  net_proceeds : num;
  profit : num;
  roi : num
}.
End FlipProfit.

Unset Implicit Arguments.

(** ** The calculators *)

Section Calculators.

Context {num : Type} `{PyNum num}.

Local Open Scope py_scope.

(** [calculate_seller_net(price, is_mls=True)] *)
Definition calculate_seller_net (price : num) (is_mls : option bool)
  : SellerNet.t num :=
  let is_mls := keyword true is_mls in
  let listing_agent := price * lit 0.03 in
  let buyer_agent := if is_mls then price * lit 0.02 else lit 0 in
  let prep_costs :=
    if is_mls
    then lit 8000 + lit 6000 + lit 1500 + lit 5000 + lit 3000 + lit 1000
    else lit 0 in
  let holding_costs :=
    if is_mls then lit 2000 + lit 600 + lit 333 else lit 0 in
  let transfer_tax := price * lit 0.0011 in
  let escrow_fees := lit 1500 in
  let total_costs :=
    listing_agent + buyer_agent + prep_costs + holding_costs
    + transfer_tax + escrow_fees in
  let net := price - total_costs in
  {| SellerNet.price := price;
     SellerNet.listing_agent := listing_agent;
     SellerNet.buyer_agent := buyer_agent;
     SellerNet.prep_costs := prep_costs;
     SellerNet.holding_costs := holding_costs;
     SellerNet.transaction_costs := transfer_tax + escrow_fees;
     SellerNet.total_costs := total_costs;
     SellerNet.net := net |}.

(** [calculate_buyer_costs(purchase_price, down_pct, interest_rate,
    remodel_cost, months=4)] *)
Definition calculate_buyer_costs
    (purchase_price down_pct interest_rate remodel_cost : num)
    (months : option num) : result (BuyerCosts.t num) :=
  let months := keyword (lit 4) months in
  down_frac <- down_pct / lit 100 ;;
  let down_payment := purchase_price * down_frac in
  down_frac' <- down_pct / lit 100 ;;
  let loan_amount := purchase_price * (lit 1 - down_frac') in
  let loan_origination := loan_amount * lit 0.01 in
  let closing_costs :=
    loan_origination + lit 600 + lit 500 + lit 1500 + lit 1500 + lit 200 in
  let seller_agent := purchase_price * lit 0.03 in
  let cash_to_acquire := down_payment + closing_costs + seller_agent in
  rate <- interest_rate / lit 100 ;;
  monthly_interest <- (loan_amount * rate) / lit 12 ;;
  let total_interest := monthly_interest * months in
  let monthly_holding := lit 1000 + lit 300 + lit 167 in
  let holding_costs := total_interest + (monthly_holding * months) in
  let total_cash := cash_to_acquire + holding_costs + remodel_cost in
  Ok {| BuyerCosts.purchase_price := purchase_price;
        BuyerCosts.down_payment := down_payment;
        BuyerCosts.loan_amount := loan_amount;
        BuyerCosts.closing_costs := closing_costs;
        BuyerCosts.seller_agent := seller_agent;
        BuyerCosts.cash_to_acquire := cash_to_acquire;
        BuyerCosts.interest := total_interest;
        BuyerCosts.holding_costs := holding_costs;
        BuyerCosts.remodel_cost := remodel_cost;
        BuyerCosts.total_cash := total_cash |}.

(** [calculate_flip_profit(buy_costs, sell_price)] *)
Definition calculate_flip_profit
    (buy_costs : BuyerCosts.t num) (sell_price : num)
  : result (FlipProfit.t num) :=
  let commission_4pct := sell_price * lit 0.04 in
  let transfer_fees := (sell_price * lit 0.0011) + lit 3000 in
  let net_proceeds :=
    sell_price - commission_4pct - transfer_fees
    - BuyerCosts.loan_amount buy_costs in
  let profit := net_proceeds - BuyerCosts.total_cash buy_costs in
  ratio <- profit / BuyerCosts.total_cash buy_costs ;;
  let roi := ratio * lit 100 in
  Ok {| FlipProfit.sell_price := sell_price;
        FlipProfit.commission := commission_4pct;
        FlipProfit.transfer_fees := transfer_fees;
        FlipProfit.net_proceeds := net_proceeds;
        FlipProfit.profit := profit;
        FlipProfit.roi := roi |}.

(** The breakeven computation of the buyer/flip tab (the three
    assignments that end in [breakeven_price]). *)
Definition breakeven_price (buy_costs : BuyerCosts.t num) : result num :=
  let total_all_in :=
    BuyerCosts.total_cash buy_costs + BuyerCosts.loan_amount buy_costs in
  fixed_fraction <- lit 3000 / lit 1000000 ;;
  let selling_percent := lit 0.04 + lit 0.0011 + fixed_fraction in
  total_all_in / (lit 1 - selling_percent).

(** [selling_percent] once [3000 / 1000000] has returned. *)
Definition selling_percent : num :=
  lit 0.04 + lit 0.0011 + quot (lit 3000) (lit 1000000).

End Calculators.

(** ** The carriers *)

(** Exact rational arithmetic. *)
#[export] Instance exact : PyNum Q := {|
  lit := fun q => q;
  add := Qplus;
  sub := Qminus;
  mul := Qmult;
  quot := Qdiv;
  is_zero := fun q => Qeq_bool q 0
|}.

(** Binary64.  An integer converts through [of_uint63], which is exact below
    2^53; a decimal literal is the correctly rounded quotient of its
    numerator and denominator, which is how the literal is read when both
    are exactly representable. *)
Definition float_of_Z (z : Z) : float :=
  match z with
  | Z0 => PrimFloat.zero
  | Zpos _ => PrimFloat.of_uint63 (Uint63.of_Z z)
  | Zneg p => PrimFloat.opp (PrimFloat.of_uint63 (Uint63.of_Z (Zpos p)))
  end.

Definition float_of_Q (q : Q) : float :=
  match Qden q with
  | xH => float_of_Z (Qnum q)
  | d => PrimFloat.div (float_of_Z (Qnum q)) (float_of_Z (Zpos d))
  end.

#[export] Instance binary64 : PyNum float := {|
  lit := float_of_Q;
  add := PrimFloat.add;
  sub := PrimFloat.sub;
  mul := PrimFloat.mul;
  quot := PrimFloat.div;
  is_zero := fun x => PrimFloat.eqb x PrimFloat.zero
|}.

(** Arithmetic that rounds: every literal and every operation is the exact
    one followed by [rnd].  Binary64 is of this kind as long as nothing
    overflows, with [rnd] rounding to the nearest double. *)
Definition rounded (rnd : Q -> Q) : PyNum Q := {|
  lit := fun q => rnd q;
  add := fun x y => rnd (x + y);
  sub := fun x y => rnd (x - y);
  mul := fun x y => rnd (x * y);
  quot := fun x y => rnd (x / y);
  is_zero := fun q => Qeq_bool q 0
|}.

(** Rounding to the nearest cent, halves upwards. *)
Definition round_to_cent (q : Q) : Q :=
  Qfloor (q * 100 + (1 # 2)) # 100.

(** What the properties below need of a carrier: the divisors the source
    writes as literals are not zero, and its sums of integer literals are
    the integers the same sums are in Python. *)
Class Literals (num : Type) {arith : PyNum num} : Prop := {
  lit_100_nonzero : is_zero (lit 100) = false;
  lit_12_nonzero : is_zero (lit 12) = false;
  lit_1000000_nonzero : is_zero (lit 1000000) = false;
  prep_costs_sum :
    (lit 8000 + lit 6000 + lit 1500 + lit 5000 + lit 3000 + lit 1000)%py
    = lit 24500;
  holding_costs_sum : (lit 2000 + lit 600 + lit 333)%py = lit 2933;
  monthly_holding_sum : (lit 1000 + lit 300 + lit 167)%py = lit 1467
}.

Arguments Literals num {arith}.

(** ** The contracts the specification states *)

Section Contracts.

Context (num : Type) {arith : PyNum num}.

Local Open Scope py_scope.



(** No argument is checked against a domain: whatever the price, the
    percentage, the rate and the number of months, the dictionaries come
    back, and every one of their entries is the source's formula on the
    arguments as given.  A calculator that rejected an argument, or replaced
    it by a bound of its domain in any entry, would not satisfy this. *)
Definition computes_on_any_input : Prop :=
  (forall price is_mls,
      let listed := keyword true is_mls in
      let total_costs :=
        price * lit 0.03
        + (if listed then price * lit 0.02 else lit 0)
        + (if listed then lit 24500 else lit 0)
        + (if listed then lit 2933 else lit 0)
        + price * lit 0.0011 + lit 1500 in
      calculate_seller_net price is_mls
      = {| SellerNet.price := price;
           SellerNet.listing_agent := price * lit 0.03;
           SellerNet.buyer_agent :=
             if listed then price * lit 0.02 else lit 0;
           SellerNet.prep_costs := if listed then lit 24500 else lit 0;
           SellerNet.holding_costs := if listed then lit 2933 else lit 0;
           SellerNet.transaction_costs := price * lit 0.0011 + lit 1500;
           SellerNet.total_costs := total_costs;
           SellerNet.net := price - total_costs |}) /\
  (forall purchase_price down_pct interest_rate remodel_cost months,
      let months' := keyword (lit 4) months in
      let down_payment := purchase_price * quot down_pct (lit 100) in
      let loan_amount :=
        purchase_price * (lit 1 - quot down_pct (lit 100)) in
      let closing_costs :=
        loan_amount * lit 0.01
        + lit 600 + lit 500 + lit 1500 + lit 1500 + lit 200 in
      let seller_agent := purchase_price * lit 0.03 in
      let cash_to_acquire := down_payment + closing_costs + seller_agent in
      let interest :=
        quot (loan_amount * quot interest_rate (lit 100)) (lit 12)
        * months' in
      let holding_costs := interest + lit 1467 * months' in
      calculate_buyer_costs purchase_price down_pct interest_rate
        remodel_cost months
      = Ok {| BuyerCosts.purchase_price := purchase_price;
              BuyerCosts.down_payment := down_payment;
              BuyerCosts.loan_amount := loan_amount;
              BuyerCosts.closing_costs := closing_costs;
              BuyerCosts.seller_agent := seller_agent;
              BuyerCosts.cash_to_acquire := cash_to_acquire;
              BuyerCosts.interest := interest;
              BuyerCosts.holding_costs := holding_costs;
              BuyerCosts.remodel_cost := remodel_cost;
              BuyerCosts.total_cash :=
                cash_to_acquire + holding_costs + remodel_cost |}).

(** The rates and the fixed fees are the literals of the function bodies,
    whatever the call; the one listed value that is an argument is the
    number of months, 4 when the call leaves it out. *)
Definition constants_are_literals : Prop :=
  (forall price is_mls,
      SellerNet.listing_agent (calculate_seller_net price is_mls)
      = price * lit 0.03 /\
      SellerNet.buyer_agent (calculate_seller_net price is_mls)
      = (if keyword true is_mls then price * lit 0.02 else lit 0) /\
      SellerNet.prep_costs (calculate_seller_net price is_mls)
      = (if keyword true is_mls then lit 24500 else lit 0) /\
      SellerNet.holding_costs (calculate_seller_net price is_mls)
      = (if keyword true is_mls then lit 2933 else lit 0) /\
      SellerNet.transaction_costs (calculate_seller_net price is_mls)
      = price * lit 0.0011 + lit 1500) /\
  (forall purchase_price down_pct interest_rate remodel_cost months,
      exists b : BuyerCosts.t num,
        calculate_buyer_costs purchase_price down_pct interest_rate
          remodel_cost months = Ok b /\
        BuyerCosts.closing_costs b
        = BuyerCosts.loan_amount b * lit 0.01
          + lit 600 + lit 500 + lit 1500 + lit 1500 + lit 200 /\
        BuyerCosts.seller_agent b = purchase_price * lit 0.03 /\
        BuyerCosts.holding_costs b
        = BuyerCosts.interest b + lit 1467 * keyword (lit 4) months) /\
  lit 600 + lit 500 + lit 1500 + lit 1500 + lit 200 = lit 4300 /\
  (forall (buy_costs : BuyerCosts.t num) sell_price f,
      calculate_flip_profit buy_costs sell_price = Ok f ->
      FlipProfit.commission f = sell_price * lit 0.04 /\
      FlipProfit.transfer_fees f = sell_price * lit 0.0011 + lit 3000) /\
  (forall purchase_price down_pct interest_rate remodel_cost,
      calculate_buyer_costs purchase_price down_pct interest_rate
        remodel_cost None
      = calculate_buyer_costs purchase_price down_pct interest_rate
          remodel_cost (Some (lit 4))).

End Contracts.

(** ** Inputs the statements below are tried on *)

(** A purchase that ties up no cash at all: every entry zero. *)
Definition nothing_invested (num : Type) {arith : PyNum num}
  : BuyerCosts.t num :=
  {| BuyerCosts.purchase_price := lit 0;
     BuyerCosts.down_payment := lit 0;
     BuyerCosts.loan_amount := lit 0;
     BuyerCosts.closing_costs := lit 0;
     BuyerCosts.seller_agent := lit 0;
     BuyerCosts.cash_to_acquire := lit 0;
     BuyerCosts.interest := lit 0;
     BuyerCosts.holding_costs := lit 0;
     BuyerCosts.remodel_cost := lit 0;
     BuyerCosts.total_cash := lit 0 |}.

(** Two purchases with the loan and the cash of the specification's
    scenario and nothing else in common. *)
Definition same_loan_and_cash (other : Q) : BuyerCosts.t float :=
  {| BuyerCosts.purchase_price := lit other;
     BuyerCosts.down_payment := lit other;
     BuyerCosts.loan_amount := lit 810000;
     BuyerCosts.closing_costs := lit other;
     BuyerCosts.seller_agent := lit other;
     BuyerCosts.cash_to_acquire := lit other;
     BuyerCosts.interest := lit other;
     BuyerCosts.holding_costs := lit other;
     BuyerCosts.remodel_cost := lit other;
     BuyerCosts.total_cash := lit 251468 |}.

(** The purchase of the specification's scenario, in exact arithmetic. *)
Definition scenario_purchase : BuyerCosts.t Q :=
  {| BuyerCosts.purchase_price := 900000;
     BuyerCosts.down_payment := 90000;
     BuyerCosts.loan_amount := 810000;
     BuyerCosts.closing_costs := 12400;
     BuyerCosts.seller_agent := 27000;
     BuyerCosts.cash_to_acquire := 129400;
     BuyerCosts.interest := 16200;
     BuyerCosts.holding_costs := 22068;
     BuyerCosts.remodel_cost := 100000;
     BuyerCosts.total_cash := 251468 |}.

(** ** The page around the calculators *)

(** Python's [<] on a carrier; [x > y] is [y < x]. *)
Class PyOrd (num : Type) : Type := {
  less : num -> num -> bool
}.

Definition greater {num : Type} `{PyOrd num} (x y : num) : bool := less y x.

#[export] Instance exact_order : PyOrd Q := {|
  less := fun x y => negb (Qle_bool y x)
|}.

#[export] Instance binary64_order : PyOrd float := {|
  less := PrimFloat.ltb
|}.

(** The text beside "Timeline Advantage", the colour of a bar of the ROI
    chart, and the four deal assessments, each named after the message it
    prints. *)
Inductive timeline : Set :=
| days_60_90
| days_21.

Inductive colour : Set :=
| red
| green
| orange.

Inductive assessment : Set :=
| WARNING
| MARGINAL_DEAL
| DECENT_DEAL
| STRONG_DEAL.

Set Implicit Arguments.

Module SellerInsights.
Record t (num : Type) : Type := mk {
  savings : num;
  best_offer : num;
  diff : num;
  delta : num;
  timeline_diff : timeline
}.
End SellerInsights.

Module BuyerInsights.
Record t (num : Type) : Type := mk {
  buy_costs : BuyerCosts.t num;
  profit1 : FlipProfit.t num;
  profit2 : FlipProfit.t num;
  profit3 : FlipProfit.t num;
  marker_color : list colour;
  breakeven : num;
  best_roi : num;
  best_profit : num;
  deal : assessment
}.
End BuyerInsights.

Unset Implicit Arguments.

Section Page.

Context {num : Type} {arith : PyNum num} {order : PyOrd num}.

Local Open Scope py_scope.

(** [max] of a sequence that is not empty, as the builtin runs: the first
    item, replaced by each later item that is greater than what is held. *)
Definition max_from (first : num) (rest : list num) : num :=
  fold_left
    (fun max_item item => if greater item max_item then item else max_item)
    rest first.

(** The key insights of the seller tab: the three metrics below the
    comparison table, in the order the page computes them. *)
Definition seller_insights (mls_price direct_offer_1 direct_offer_2
                            direct_offer_3 : num)
  : result (SellerInsights.t num) :=
  let mls_calc := calculate_seller_net mls_price (Some true) in
  let offer1_calc := calculate_seller_net direct_offer_1 (Some false) in
  let offer2_calc := calculate_seller_net direct_offer_2 (Some false) in
  let offer3_calc := calculate_seller_net direct_offer_3 (Some false) in
  let savings :=
    SellerNet.buyer_agent mls_calc + SellerNet.prep_costs mls_calc
    + SellerNet.holding_costs mls_calc in
  let best_offer :=
    max_from (SellerNet.net offer1_calc)
      [SellerNet.net offer2_calc; SellerNet.net offer3_calc] in
  let diff := best_offer - SellerNet.net mls_calc in
  ratio <- diff / SellerNet.net mls_calc ;;
  let delta := ratio * lit 100 in
  let timeline_diff :=
    if less diff (lit (-10000)) then days_60_90 else days_21 in
  Ok {| SellerInsights.savings := savings;
        SellerInsights.best_offer := best_offer;
        SellerInsights.diff := diff;
        SellerInsights.delta := delta;
        SellerInsights.timeline_diff := timeline_diff |}.

(** The colour of a bar of the ROI chart. *)
Definition bar_colour (roi : num) : colour :=
  if less roi (lit 0) then red
  else if greater roi (lit 15) then green
  else orange.

(** The branch of the deal assessment. *)
Definition deal_assessment (best_roi : num) : assessment :=
  if less best_roi (lit 0) then WARNING
  else if less best_roi (lit 10) then MARGINAL_DEAL
  else if less best_roi (lit 20) then DECENT_DEAL
  else STRONG_DEAL.

(** The buyer/flip tab: the costs, the three sale scenarios, the colours of
    the chart, the breakeven price and the assessment, in the order the page
    computes them. *)
Definition buyer_insights
    (purchase_price down_payment_pct interest_rate remodel_cost
     remodel_months sale_price_1 sale_price_2 sale_price_3 : num)
  : result (BuyerInsights.t num) :=
  buy_costs <- calculate_buyer_costs purchase_price down_payment_pct
                 interest_rate remodel_cost (Some remodel_months) ;;
  profit1 <- calculate_flip_profit buy_costs sale_price_1 ;;
  profit2 <- calculate_flip_profit buy_costs sale_price_2 ;;
  profit3 <- calculate_flip_profit buy_costs sale_price_3 ;;
  let marker_color :=
    map (fun p => bar_colour (FlipProfit.roi p))
      [profit1; profit2; profit3] in
  breakeven <- breakeven_price buy_costs ;;
  let best_roi :=
    max_from (FlipProfit.roi profit1)
      [FlipProfit.roi profit2; FlipProfit.roi profit3] in
  let best_profit :=
    max_from (FlipProfit.profit profit1)
      [FlipProfit.profit profit2; FlipProfit.profit profit3] in
  Ok {| BuyerInsights.buy_costs := buy_costs;
        BuyerInsights.profit1 := profit1;
        BuyerInsights.profit2 := profit2;
        BuyerInsights.profit3 := profit3;
        BuyerInsights.marker_color := marker_color;
        BuyerInsights.breakeven := breakeven;
        BuyerInsights.best_roi := best_roi;
        BuyerInsights.best_profit := best_profit;
        BuyerInsights.deal := deal_assessment best_roi |}.

End Page.

(** ** The saved properties *)

(** What the Save button stores; [saved_date] is the clock's reading, taken
    as given. *)
Record property_data : Set := {
  name : String.string;
  bedrooms : Z;
  bathrooms : Z;
  sqft : Z;
  year_built : Z;
  notes : String.string;
  saved_date : String.string
}.

(** The Save button: [properties.append(property_data)]. *)
Definition save_property (data : property_data)
    (properties : list property_data) : list property_data :=
  properties ++ [data].

(** [properties.pop(idx)] for an index counted from the front: the item
    taken out and the list left, or [None] for Python's [IndexError]. *)
Definition pop (idx : nat) (properties : list property_data)
  : option (property_data * list property_data) :=
  match nth_error properties idx with
  | Some data => Some (data, firstn idx properties ++ skipn (S idx) properties)
  | None => None
  end.

(** [enumerate(properties)]: what the saved tab loops over. *)
Definition enumerate (properties : list property_data)
  : list (nat * property_data) :=
  combine (seq 0 (length properties)) properties.

(** The property the sidebar starts with, as the Save button stores it. *)
Module Example.
Import String.
Definition canyon_oaks : property_data :=
  {| name := "38173 Canyon Oaks Ct";
     bedrooms := 4;
     bathrooms := 3;
     sqft := 2523;
     year_built := 1991;
     notes := "";
     saved_date := "2024-01-01 12:00" |}.
End Example.

(** ** Binary64 rounding, in integers *)

(** What the properties say of binary64 results for every input rests on
    the library's specification of the format ([SpecFloat]).  The
    definitions below restate its rounding on integers: a finite float is
    worth the integer [Vx], its value in units of [2^-1074] (the smallest
    positive float), and an addition or a subtraction of two floats returns
    the float worth [RZ] of the exact result. *)

Section Binary64Rounding.

Local Open Scope Z_scope.

(** Round to nearest, ties to even, of [N / 2^k] for [N >= 0]. *)
Definition rne (k N : Z) : Z :=
  let q := N / 2 ^ k in
  let rem := N mod 2 ^ k in
  match 2 * rem ?= 2 ^ k with
  | Lt => q
  | Eq => if Z.even q then q else q + 1
  | Gt => q + 1
  end.

Definition INF : Z := 2 ^ 2100.

Definition RZpos (N : Z) : Z :=
  let k := Z.max (Zdigits2 N - 53) 0 in
  let v := rne k N * 2 ^ k in
  if v <? 2 ^ 2098 then v else INF.

Definition RZ (N : Z) : Z :=
  match N with
  | Z0 => 0
  | Zpos _ => RZpos N
  | Zneg p => - RZpos (Zpos p)
  end.

(** The exponent of the format for a number of [x] digits above the binary
    point. *)
Definition fexp64 (x : Z) : Z := Z.max (x - 53) (-1074).

(** What [n] steps of [shr_1] from [(N, false, false)] have kept of [N]. *)
Definition shr_inv (n N : Z) (mrs : shr_record) : Prop :=
  0 <= shr_m mrs /\
  0 <= N - shr_m mrs * 2 ^ n < 2 ^ n /\
  shr_r mrs = (2 ^ n <=? 2 * (N - shr_m mrs * 2 ^ n)) /\
  shr_s mrs = negb (N - shr_m mrs * 2 ^ n =? 0)
              && negb (2 * (N - shr_m mrs * 2 ^ n) =? 2 ^ n).

(** The second shift and the test for overflow. *)
Definition tail (s : bool) (m e : Z) : spec_float :=
  let '(mrs, e') := shr_fexp 53 1024 m e loc_Exact in
  match shr_m mrs with
  | Z0 => S754_zero s
  | Zpos m' =>
      if e' <=? 1024 - 53 then S754_finite s m' e' else S754_infinity s
  | Zneg _ => S754_nan
  end.

(** The value of a float in units of [2^-1074], the infinities standing
    at [INF] and [- INF]. *)
Definition Vx (x : spec_float) : Z :=
  match x with
  | S754_zero _ => 0
  | S754_infinity s => if s then - INF else INF
  | S754_nan => 0
  | S754_finite s m e =>
      if s then - (Zpos m * 2 ^ (e + 1074)) else Zpos m * 2 ^ (e + 1074)
  end.

Definition is_nan_sf (x : spec_float) : bool :=
  match x with
  | S754_nan => true
  | _ => false
  end.

Definition signed (s : bool) (v : Z) : Z := if s then - v else v.

Definition Vf (x : float) : Z := Vx (Prim2SF x).
Definition nanf (x : float) : bool := is_nan_sf (Prim2SF x).

(** A float that is not negative and not infinite. *)
Definition is_amount (x : float) : Prop :=
  PrimFloat.leb 0 x = true /\ PrimFloat.ltb x infinity = true.

End Binary64Rounding.

(** * Properties *)

(** ** The carriers *)

(** The literals of the binary64 carrier are the doubles the Python reader
    produces for the same text. *)
Lemma binary64_literals :
  lit (num := float) 0.03 = 0x1.eb851eb851eb8p-6%float /\
  lit (num := float) 0.02 = 0x1.47ae147ae147bp-6%float /\
  lit (num := float) 0.01 = 0x1.47ae147ae147bp-7%float /\
  lit (num := float) 0.04 = 0x1.47ae147ae147bp-5%float /\
  lit (num := float) 0.0011 = 0x1.205bc01a36e2fp-10%float /\
  lit (num := float) 100 = 100%float /\
  lit (num := float) 1000000 = 1000000%float.
Proof. repeat split; reflexivity. Qed.

(** Below 2^63 an integer converts as the format rounds it: exactly when it
    is below 2^53. *)
Lemma float_of_Z_spec (z : Z) :
  (0 < z < 2 ^ 63)%Z ->
  Prim2SF (float_of_Z z) = binary_normalize prec emax z 0 false.
Proof.
  intros Hz. destruct z as [|p|p]; try lia.
  unfold float_of_Z. rewrite of_uint63_spec. f_equal.
  change (Uint63Axioms.to_Z (Uint63.of_Z (Z.pos p)))
    with (Uint63.to_Z (Uint63.of_Z (Z.pos p))).
  rewrite Uint63.of_Z_spec. apply Z.mod_small.
  change Uint63.wB with (2 ^ 63)%Z. lia.
Qed.

#[export] Instance exact_literals : Literals Q.
Proof. split; reflexivity. Qed.

#[export] Instance binary64_literals_ok : Literals float.
Proof. split; reflexivity. Qed.

(** ** What holds on every carrier *)

Section Generic.

Context {num : Type} `{Literals num}.

Local Open Scope py_scope.

Lemma div_nonzero (x y : num) :
  is_zero y = false -> x / y = Ok (quot x y).
Proof. intros E. unfold div. now rewrite E. Qed.

Lemma div_zero (x y : num) :
  is_zero y = true -> x / y = Raise ZeroDivisionError.
Proof. intros E. unfold div. now rewrite E. Qed.

(** [calculate_buyer_costs] returns, and each entry of the dictionary it
    returns is the source's formula on the arguments as given. *)
Lemma calculate_buyer_costs_returns
    (purchase_price down_pct interest_rate remodel_cost : num)
    (months : option num) :
  exists b : BuyerCosts.t num,
    calculate_buyer_costs purchase_price down_pct interest_rate
      remodel_cost months = Ok b /\
    BuyerCosts.purchase_price b = purchase_price /\
    BuyerCosts.down_payment b
      = purchase_price * quot down_pct (lit 100) /\
    BuyerCosts.loan_amount b
      = purchase_price * (lit 1 - quot down_pct (lit 100)) /\
    BuyerCosts.closing_costs b
      = BuyerCosts.loan_amount b * lit 0.01
        + lit 600 + lit 500 + lit 1500 + lit 1500 + lit 200 /\
    BuyerCosts.seller_agent b = purchase_price * lit 0.03 /\
    BuyerCosts.cash_to_acquire b
      = BuyerCosts.down_payment b + BuyerCosts.closing_costs b
        + BuyerCosts.seller_agent b /\
    BuyerCosts.interest b
      = quot (BuyerCosts.loan_amount b * quot interest_rate (lit 100))
          (lit 12)
        * keyword (lit 4) months /\
    BuyerCosts.holding_costs b
      = BuyerCosts.interest b
        + (lit 1000 + lit 300 + lit 167) * keyword (lit 4) months /\
    BuyerCosts.remodel_cost b = remodel_cost /\
    BuyerCosts.total_cash b
      = BuyerCosts.cash_to_acquire b + BuyerCosts.holding_costs b
        + remodel_cost.
Proof.
  unfold calculate_buyer_costs.
  repeat (rewrite (div_nonzero _ _ lit_100_nonzero); cbn [bind]).
  rewrite (div_nonzero _ _ lit_12_nonzero); cbn [bind].
  eexists. split; [reflexivity|].
  cbn. repeat split.
Qed.

(** [calculate_flip_profit] raises exactly when its divisor,
    [buy_costs['total_cash']], is zero; otherwise it returns the source's
    formulas. *)
Lemma calculate_flip_profit_raises
    (buy_costs : BuyerCosts.t num) (sell_price : num) :
  is_zero (BuyerCosts.total_cash buy_costs) = true ->
  calculate_flip_profit buy_costs sell_price = Raise ZeroDivisionError.
Proof.
  intros E. unfold calculate_flip_profit.
  now rewrite (div_zero _ _ E).
Qed.

Lemma calculate_flip_profit_returns
    (buy_costs : BuyerCosts.t num) (sell_price : num) :
  is_zero (BuyerCosts.total_cash buy_costs) = false ->
  exists f : FlipProfit.t num,
    calculate_flip_profit buy_costs sell_price = Ok f /\
    FlipProfit.sell_price f = sell_price /\
    FlipProfit.commission f = sell_price * lit 0.04 /\
    FlipProfit.transfer_fees f = sell_price * lit 0.0011 + lit 3000 /\
    FlipProfit.net_proceeds f
      = sell_price - FlipProfit.commission f - FlipProfit.transfer_fees f
        - BuyerCosts.loan_amount buy_costs /\
    FlipProfit.profit f
      = FlipProfit.net_proceeds f - BuyerCosts.total_cash buy_costs /\
    FlipProfit.roi f
      = quot (FlipProfit.profit f) (BuyerCosts.total_cash buy_costs)
        * lit 100.
Proof.
  intros E. unfold calculate_flip_profit.
  rewrite (div_nonzero _ _ E). cbn [bind].
  eexists. split; [reflexivity|]. cbn. repeat split.
Qed.


(** The entries of the dictionary [calculate_seller_net] returns. *)
Lemma calculate_seller_net_entries (price : num) (is_mls : option bool) :
  SellerNet.price (calculate_seller_net price is_mls) = price /\
  SellerNet.listing_agent (calculate_seller_net price is_mls)
    = price * lit 0.03 /\
  SellerNet.buyer_agent (calculate_seller_net price is_mls)
    = (if keyword true is_mls then price * lit 0.02 else lit 0) /\
  SellerNet.prep_costs (calculate_seller_net price is_mls)
    = (if keyword true is_mls then lit 24500 else lit 0) /\
  SellerNet.holding_costs (calculate_seller_net price is_mls)
    = (if keyword true is_mls then lit 2933 else lit 0) /\
  SellerNet.transaction_costs (calculate_seller_net price is_mls)
    = price * lit 0.0011 + lit 1500 /\
  SellerNet.total_costs (calculate_seller_net price is_mls)
    = SellerNet.listing_agent (calculate_seller_net price is_mls)
      + SellerNet.buyer_agent (calculate_seller_net price is_mls)
      + SellerNet.prep_costs (calculate_seller_net price is_mls)
      + SellerNet.holding_costs (calculate_seller_net price is_mls)
      + price * lit 0.0011 + lit 1500 /\
  SellerNet.net (calculate_seller_net price is_mls)
    = price - SellerNet.total_costs (calculate_seller_net price is_mls).
Proof.
  unfold calculate_seller_net. cbn.
  destruct (keyword true is_mls);
    rewrite ?prep_costs_sum, ?holding_costs_sum; repeat split.
Qed.

(** The breakeven computation returns whenever one minus the selling
    fraction is not zero. *)
Lemma breakeven_price_returns (buy_costs : BuyerCosts.t num) :
  is_zero (lit 1 - selling_percent) = false ->
  breakeven_price buy_costs
  = Ok (quot (BuyerCosts.total_cash buy_costs
              + BuyerCosts.loan_amount buy_costs)
             (lit 1 - selling_percent)).
Proof.
  intros E. unfold breakeven_price.
  rewrite (div_nonzero _ _ lit_1000000_nonzero). cbn [bind].
  now rewrite (div_nonzero _ _ E).
Qed.



Lemma computes_on_any_input_holds : computes_on_any_input num.
Proof.
  split.
  - intros price is_mls. cbv zeta.
    unfold calculate_seller_net. cbv zeta.
    destruct (keyword true is_mls);
      rewrite ?prep_costs_sum, ?holding_costs_sum; reflexivity.
  - intros p d i r m. cbv zeta.
    unfold calculate_buyer_costs. cbv zeta.
    repeat (rewrite (div_nonzero _ _ lit_100_nonzero); cbn [bind]).
    rewrite (div_nonzero _ _ lit_12_nonzero); cbn [bind].
    rewrite monthly_holding_sum. reflexivity.
Qed.

Lemma constants_are_literals_holds
      (closing_sum :
         lit 600 + lit 500 + lit 1500 + lit 1500 + lit 200 = lit 4300) :
  constants_are_literals num.
Proof.
  split; [|split; [|split; [|split]]].
  - intros price is_mls.
    destruct (calculate_seller_net_entries price is_mls)
      as (_ & Hla & Hba & Hprep & Hhold & Htx & _).
    now repeat split.
  - intros p d i r m.
    destruct (calculate_buyer_costs_returns p d i r m)
      as (b & Hb & _ & _ & _ & Hclose & Hsa & _ & _ & Hhold & _).
    exists b. rewrite monthly_holding_sum in Hhold. now repeat split.
  - exact closing_sum.
  - intros b s f Hf.
    destruct (is_zero (BuyerCosts.total_cash b)) eqn:E.
    + now rewrite (calculate_flip_profit_raises b s E) in Hf.
    + destruct (calculate_flip_profit_returns b s E)
        as (f' & Hf' & _ & Hc & Ht & _).
      rewrite Hf' in Hf. injection Hf as <-. now split.
  - reflexivity.
Qed.

End Generic.

(** ** Exact arithmetic *)

Module Exact.

Local Open Scope Q_scope.

(** Unfolds the arithmetic of the exact carrier to the operations of [Q]. *)
Ltac to_Q :=
  cbv [lit add sub mul quot is_zero exact keyword selling_percent
       SellerNet.net SellerNet.total_costs SellerNet.price
       calculate_seller_net] in *.

Lemma is_zero_iff (q : Q) : is_zero q = true <-> q == 0.
Proof. apply Qeq_bool_iff. Qed.

Lemma is_zero_false (q : Q) : ~ q == 0 -> is_zero q = false.
Proof.
  intros Hq. destruct (is_zero q) eqn:E; [|reflexivity].
  now apply is_zero_iff in E.
Qed.

Lemma selling_percent_value : selling_percent == 0.0441.
Proof. reflexivity. Qed.

Lemma net_listed (price : Q) :
  SellerNet.net (calculate_seller_net price (Some true))
  == price - (price * 0.03 + price * 0.02 + 24500 + 2933
              + price * 0.0011 + 1500).
Proof. to_Q. ring. Qed.

Lemma net_direct (price : Q) :
  SellerNet.net (calculate_seller_net price (Some false))
  == price - (price * 0.03 + price * 0.0011 + 1500).
Proof. to_Q. ring. Qed.


(** Selling at the breakeven price leaves the gap between the fixed
    resale fee, 3000, and the fraction 3000/1000000 of the sale price that
    the breakeven computation puts in its place. *)
Lemma profit_at_breakeven (b : BuyerCosts.t Q) :
  ~ BuyerCosts.total_cash b == 0 ->
  exists s f,
    breakeven_price b = Ok s /\
    s == (BuyerCosts.total_cash b + BuyerCosts.loan_amount b)
         / (1 - (0.04 + 0.0011 + 3000 / 1000000)) /\
    calculate_flip_profit b s = Ok f /\
    FlipProfit.profit f == s * (3000 / 1000000) - 3000.
Proof.
  intros Hcash.
  assert (Hden : is_zero (num := Q) (lit 1 - selling_percent)%py = false)
    by reflexivity.
  rewrite (breakeven_price_returns b Hden).
  destruct (calculate_flip_profit_returns b
              (quot (BuyerCosts.total_cash b + BuyerCosts.loan_amount b)%py
                    (lit 1 - selling_percent)%py)
              (is_zero_false _ Hcash))
    as (f & Hf & _ & Hcomm & Hfees & Hnet & Hprofit & _).
  eexists. exists f. split; [reflexivity|].
  split; [to_Q; reflexivity|].
  split; [exact Hf|].
  rewrite Hprofit, Hnet, Hfees, Hcomm. to_Q. field.
Qed.

End Exact.

(** ** Binary64 arithmetic *)

Module Binary64.

Local Open Scope float_scope.

Lemma neg_zero_of_spec (x : float) :
  Prim2SF x = S754_zero true -> x = -0.
Proof.
  intros E. rewrite <- (SF2Prim_Prim2SF x), E. reflexivity.
Qed.

(** Adding [+0.0] changes nothing but the sign of [-0.0]. *)
Lemma add_zero_r (x : float) : x + 0 = x \/ x = -0.
Proof.
  destruct (Prim2SF x) as [[|]| | |s m e] eqn:E;
    [right; now apply neg_zero_of_spec | left ..];
    apply Prim2SF_inj; rewrite add_spec, E; reflexivity.
Qed.

Lemma add_zero_l (y : float) : 0 + y = y \/ y = -0.
Proof.
  destruct (Prim2SF y) as [[|]| | |s m e] eqn:E;
    [right; now apply neg_zero_of_spec | left ..];
    apply Prim2SF_inj; rewrite add_spec, E; reflexivity.
Qed.

Lemma add_neg_zero_l (y : float) : -0 + y = y.
Proof.
  apply Prim2SF_inj. rewrite add_spec.
  change (Prim2SF (-0)) with (S754_zero true).
  destruct (Prim2SF y) as [[|]|[|] | |s m e]; reflexivity.
Qed.

(** The three zero entries of an off-market sale leave the total of the
    costs as it is without them. *)
Lemma zeros_absorbed (a t : float) :
  a + 0 + 0 + 0 + t + 1500 = a + t + 1500.
Proof.
  destruct (add_zero_r a) as [Ha | Ha].
  - now rewrite !Ha.
  - subst a. change (-0 + 0 + 0 + 0) with 0.
    rewrite add_neg_zero_l.
    destruct (add_zero_l t) as [Ht | Ht].
    + now rewrite Ht.
    + subst t. reflexivity.
Qed.

Lemma net_listed_binary64 (price : float) :
  SellerNet.net (calculate_seller_net price (Some true))
  = (price - (price * lit 0.03 + price * lit 0.02 + lit 24500 + lit 2933
              + price * lit 0.0011 + lit 1500))%py.
Proof.
  destruct (calculate_seller_net_entries price (Some true))
    as (_ & Hla & Hba & Hprep & Hhold & _ & Htotal & Hnet).
  now rewrite Hnet, Htotal, Hla, Hba, Hprep, Hhold.
Qed.

Lemma net_direct_binary64 (price : float) :
  SellerNet.net (calculate_seller_net price (Some false))
  = (price - (price * lit 0.03 + price * lit 0.0011 + lit 1500))%py.
Proof.
  destruct (calculate_seller_net_entries price (Some false))
    as (_ & Hla & Hba & Hprep & Hhold & _ & Htotal & Hnet).
  rewrite Hnet, Htotal, Hla, Hba, Hprep, Hhold. cbn [keyword].
  f_equal. exact (zeros_absorbed _ _).
Qed.

End Binary64.

(** ** Arithmetic that rounds *)

(** The comparison of the two ways to sell survives rounding: it needs of
    [rnd] only that it is monotone and leaves zero alone. *)
Section Rounded.

Variable rnd : Q -> Q.
Hypothesis rnd_monotone : forall x y : Q, x <= y -> rnd x <= rnd y.
Hypothesis rnd_zero : rnd 0 == 0.

Lemma rnd_nonneg (x : Q) : 0 <= x -> 0 <= rnd x.
Proof.
  intros Hx. rewrite <- rnd_zero. now apply rnd_monotone.
Qed.

Lemma rnd_add_monotone (x x' y y' : Q) :
  x <= x' -> y <= y' -> rnd (x + y) <= rnd (x' + y').
Proof.
  intros Hx Hy. apply rnd_monotone. now apply Qplus_le_compat.
Qed.

Lemma sum_nonneg (x y : Q) : 0 <= x -> 0 <= y -> 0 <= x + y.
Proof. intros Hx Hy. lra. Qed.

Lemma net_direct_ge_listed_rounded (price : Q) :
  0 <= price ->
  SellerNet.net (@calculate_seller_net Q (rounded rnd) price (Some true))
  <= SellerNet.net (@calculate_seller_net Q (rounded rnd) price (Some false)).
Proof.
  intros Hp.
  cbv [calculate_seller_net keyword SellerNet.net rounded lit add sub mul].
  apply rnd_monotone. unfold Qminus. apply Qplus_le_r. apply Qopp_le_compat.
  repeat apply rnd_add_monotone; try apply Qle_refl.
  - apply rnd_monotone, Qmult_le_0_compat; [assumption|].
    apply rnd_nonneg. now apply Qle_bool_imp_le.
  - apply rnd_monotone.
    repeat first [apply sum_nonneg | apply rnd_nonneg];
      now apply Qle_bool_imp_le.
  - apply rnd_monotone.
    repeat first [apply sum_nonneg | apply rnd_nonneg];
      now apply Qle_bool_imp_le.
Qed.

End Rounded.

(** Rounding every amount to the cent is such a rounding. *)
Lemma round_to_cent_monotone (x y : Q) :
  x <= y -> round_to_cent x <= round_to_cent y.
Proof.
  intros Hxy. unfold round_to_cent, Qle. cbn [Qnum Qden].
  apply Z.mul_le_mono_nonneg_r; [discriminate|].
  apply Qfloor_resp_le. lra.
Qed.

Lemma round_to_cent_zero : round_to_cent 0 == 0.
Proof. reflexivity. Qed.

Example net_direct_ge_listed_in_cents (price : Q) :
  0 <= price ->
  SellerNet.net
    (@calculate_seller_net Q (rounded round_to_cent) price (Some true))
  <= SellerNet.net
       (@calculate_seller_net Q (rounded round_to_cent) price (Some false)).
Proof.
  apply net_direct_ge_listed_rounded.
  - exact round_to_cent_monotone.
  - exact round_to_cent_zero.
Qed.

(** ** Binary64 rounding *)

(** The rounding of [SpecFloat] is the rounding [RZ] of integers, [RZ] is
    monotone, and the order of floats is the order of their values. *)

Section RoundingProperties.

Local Open Scope Z_scope.

Lemma pow2_pos (k : Z) : 0 <= k -> 0 < 2 ^ k.
Proof. intros Hk. apply Z.pow_pos_nonneg; lia. Qed.

Lemma rne_bounds (k N : Z) :
  0 <= k -> N / 2 ^ k <= rne k N <= N / 2 ^ k + 1.
Proof.
  intros Hk. unfold rne.
  destruct (2 * (N mod 2 ^ k) ?= 2 ^ k); [destruct (Z.even _)|..]; lia.
Qed.

Lemma rne_exact (k q : Z) : 0 <= k -> rne k (q * 2 ^ k) = q.
Proof.
  intros Hk. pose proof (pow2_pos k Hk) as HP. unfold rne.
  rewrite Z.div_mul, Z.mod_mul by lia.
  destruct (Z.compare_spec (2 * 0) (2 ^ k)); [lia|reflexivity|lia].
Qed.

Lemma rne_monotone (k N N' : Z) :
  0 <= k -> N <= N' -> rne k N <= rne k N'.
Proof.
  intros Hk HN. pose proof (pow2_pos k Hk) as HP.
  pose proof (rne_bounds k N Hk) as HB.
  pose proof (rne_bounds k N' Hk) as HB'.
  assert (Hq : N / 2 ^ k <= N' / 2 ^ k) by (apply Z.div_le_mono; lia).
  destruct (Z.eq_dec (N / 2 ^ k) (N' / 2 ^ k)) as [E|E]; [|lia].
  assert (Hr : N mod 2 ^ k <= N' mod 2 ^ k).
  { rewrite !Z.mod_eq by lia. rewrite E. lia. }
  clear HB HB'. unfold rne. rewrite <- E.
  generalize dependent (N mod 2 ^ k). generalize dependent (N' mod 2 ^ k).
  generalize dependent (N / 2 ^ k). generalize dependent (2 ^ k).
  intros P HP q _ _ r' r Hr.
  destruct (Z.compare_spec (2 * r) P); destruct (Z.compare_spec (2 * r') P);
    destruct (Z.even q); lia.
Qed.

(** Scaling the argument and the shift together changes nothing. *)
Lemma rne_shift (k j m : Z) :
  0 <= k -> 0 <= j -> rne (k + j) (m * 2 ^ j) = rne k m.
Proof.
  intros Hk Hj.
  pose proof (pow2_pos k Hk) as HP. pose proof (pow2_pos j Hj) as HQ.
  unfold rne. rewrite Z.pow_add_r by lia.
  rewrite Z.div_mul_cancel_r by lia.
  rewrite Z.mul_mod_distr_r by lia.
  assert (C : (2 * (m mod 2 ^ k * 2 ^ j) ?= 2 ^ k * 2 ^ j)
              = (2 * (m mod 2 ^ k) ?= 2 ^ k)).
  { destruct (Z.compare_spec (2 * (m mod 2 ^ k)) (2 ^ k));
      destruct (Z.compare_spec (2 * (m mod 2 ^ k * 2 ^ j)) (2 ^ k * 2 ^ j));
      try reflexivity; nia. }
  rewrite C. reflexivity.
Qed.

(** The number of binary digits. *)
Lemma digits2_pos_bounds (m : positive) :
  2 ^ (Zpos (digits2_pos m) - 1) <= Zpos m < 2 ^ Zpos (digits2_pos m).
Proof.
  induction m as [m IH|m IH|]; cbn [digits2_pos].
  - rewrite Pos2Z.inj_succ. replace (Z.succ (Zpos (digits2_pos m)) - 1)
      with (Z.succ (Zpos (digits2_pos m) - 1)) by lia.
    rewrite !Z.pow_succ_r by lia. lia.
  - rewrite Pos2Z.inj_succ. replace (Z.succ (Zpos (digits2_pos m)) - 1)
      with (Z.succ (Zpos (digits2_pos m) - 1)) by lia.
    rewrite !Z.pow_succ_r by lia. lia.
  - cbn. lia.
Qed.

Lemma Zdigits2_bounds (N : Z) :
  0 < N -> 2 ^ (Zdigits2 N - 1) <= N < 2 ^ Zdigits2 N.
Proof.
  intros HN. destruct N as [|m|m]; try lia. apply digits2_pos_bounds.
Qed.

Lemma Zdigits2_pos (N : Z) : 0 < N -> 0 < Zdigits2 N.
Proof. intros HN. destruct N; cbn; lia. Qed.

Lemma Zdigits2_unique (N d : Z) :
  0 < d -> 2 ^ (d - 1) <= N < 2 ^ d -> Zdigits2 N = d.
Proof.
  intros Hd HN.
  assert (HNpos : 0 < N) by (pose proof (pow2_pos (d - 1)); lia).
  pose proof (Zdigits2_bounds N HNpos) as HB.
  pose proof (Zdigits2_pos N HNpos) as HD.
  destruct (Z.lt_trichotomy (Zdigits2 N) d) as [L|[E|G]]; [|exact E|].
  - assert (2 ^ Zdigits2 N <= 2 ^ (d - 1)) by (apply Z.pow_le_mono_r; lia). lia.
  - assert (2 ^ d <= 2 ^ (Zdigits2 N - 1)) by (apply Z.pow_le_mono_r; lia). lia.
Qed.

Lemma Zdigits2_monotone (N N' : Z) :
  0 < N -> N <= N' -> Zdigits2 N <= Zdigits2 N'.
Proof.
  intros HN HN'.
  pose proof (Zdigits2_bounds N HN) as HB.
  pose proof (Zdigits2_bounds N' ltac:(lia)) as HB'.
  pose proof (Zdigits2_pos N HN) as HD.
  destruct (Z.le_gt_cases (Zdigits2 N) (Zdigits2 N')) as [L|G]; [exact L|].
  assert (2 ^ Zdigits2 N' <= 2 ^ (Zdigits2 N - 1))
    by (apply Z.pow_le_mono_r; lia).
  lia.
Qed.

Lemma Zdigits2_shift (m j : Z) :
  0 < m -> 0 <= j -> Zdigits2 (m * 2 ^ j) = Zdigits2 m + j.
Proof.
  intros Hm Hj.
  pose proof (Zdigits2_bounds m Hm) as HB.
  pose proof (Zdigits2_pos m Hm) as HD.
  pose proof (pow2_pos j Hj) as HP.
  apply Zdigits2_unique; [lia|].
  replace (Zdigits2 m + j - 1) with (Zdigits2 m - 1 + j) by lia.
  rewrite !Z.pow_add_r by lia. nia.
Qed.

Lemma INF_big : 2 ^ 2098 < INF.
Proof. unfold INF. apply Z.pow_lt_mono_r; lia. Qed.

Lemma rounded_monotone (N N' : Z) :
  0 < N -> N <= N' ->
  rne (Z.max (Zdigits2 N - 53) 0) N * 2 ^ Z.max (Zdigits2 N - 53) 0
  <= rne (Z.max (Zdigits2 N' - 53) 0) N' * 2 ^ Z.max (Zdigits2 N' - 53) 0.
Proof.
  intros HN HN'.
  pose proof (Zdigits2_monotone N N' HN HN') as Hd.
  pose proof (Zdigits2_bounds N HN) as HB.
  pose proof (Zdigits2_bounds N' ltac:(lia)) as HB'.
  pose proof (Zdigits2_pos N HN) as HD.
  set (k := Z.max (Zdigits2 N - 53) 0).
  set (k' := Z.max (Zdigits2 N' - 53) 0).
  assert (Hk : 0 <= k) by lia. assert (Hk' : 0 <= k') by lia.
  assert (Hkk : k <= k') by lia.
  pose proof (pow2_pos k Hk) as HP. pose proof (pow2_pos k' Hk') as HP'.
  destruct (Z.eq_dec k k') as [E|E].
  - rewrite <- E. apply Z.mul_le_mono_nonneg_r; [lia|].
    now apply rne_monotone.
  - assert (Hlow : rne k N * 2 ^ k <= 2 ^ (53 + k)).
    { rewrite Z.pow_add_r by lia. apply Z.mul_le_mono_nonneg_r; [lia|].
      pose proof (rne_bounds k N Hk) as Hb.
      assert (N / 2 ^ k < 2 ^ 53).
      { apply Z.div_lt_upper_bound; [lia|].
        rewrite Z.mul_comm, <- Z.pow_add_r by lia.
        assert (2 ^ Zdigits2 N <= 2 ^ (53 + k))
          by (apply Z.pow_le_mono_r; lia).
        lia. }
      lia. }
    assert (Hhigh : 2 ^ (52 + k') <= rne k' N' * 2 ^ k').
    { rewrite Z.pow_add_r by lia. apply Z.mul_le_mono_nonneg_r; [lia|].
      pose proof (rne_bounds k' N' Hk') as Hb.
      assert (2 ^ 52 <= N' / 2 ^ k').
      { apply Z.div_le_lower_bound; [lia|].
        rewrite Z.mul_comm, <- Z.pow_add_r by lia.
        assert (2 ^ (52 + k') <= 2 ^ (Zdigits2 N' - 1))
          by (apply Z.pow_le_mono_r; lia).
        lia. }
      lia. }
    assert (2 ^ (53 + k) <= 2 ^ (52 + k')) by (apply Z.pow_le_mono_r; lia).
    lia.
Qed.

Lemma RZpos_le_INF (N : Z) : RZpos N <= INF.
Proof.
  unfold RZpos. pose proof INF_big.
  destruct (_ <? _) eqn:E; [apply Z.ltb_lt in E|]; lia.
Qed.

Lemma RZpos_pos (N : Z) : 0 < N -> 0 < RZpos N.
Proof.
  intros HN. unfold RZpos.
  set (k := Z.max (Zdigits2 N - 53) 0). assert (Hk : 0 <= k) by lia.
  pose proof (pow2_pos k Hk) as HP.
  destruct (_ <? _) eqn:E; [|unfold INF; apply pow2_pos; lia].
  apply Z.mul_pos_pos; [|lia].
  pose proof (rne_bounds k N Hk) as Hb.
  pose proof (Zdigits2_bounds N HN) as HB.
  pose proof (Zdigits2_pos N HN) as HD.
  assert (0 < N / 2 ^ k); [|lia].
  apply Z.div_str_pos. split; [lia|].
  destruct (Z.max_spec (Zdigits2 N - 53) 0) as [[_ Hm]|[_ Hm]]; fold k in Hm.
  - rewrite Hm. cbn. lia.
  - assert (2 ^ k <= 2 ^ (Zdigits2 N - 1)) by (apply Z.pow_le_mono_r; lia).
    lia.
Qed.

Lemma RZpos_monotone (N N' : Z) :
  0 < N -> N <= N' -> RZpos N <= RZpos N'.
Proof.
  intros HN HN'. pose proof (rounded_monotone N N' HN HN') as Hv.
  pose proof INF_big. unfold RZpos.
  destruct (_ <? _) eqn:E; destruct (_ <? _) eqn:E' in |- *;
    try apply Z.ltb_lt in E; try apply Z.ltb_lt in E';
    try apply Z.ltb_ge in E; try apply Z.ltb_ge in E'; lia.
Qed.

Lemma RZ_nonneg (N : Z) : 0 <= N -> 0 <= RZ N.
Proof.
  intros HN. destruct N as [|p|p]; cbn [RZ]; try lia.
  pose proof (RZpos_pos (Zpos p)). lia.
Qed.

Lemma RZ_opp (N : Z) : RZ (- N) = - RZ N.
Proof. destruct N; cbn [RZ Z.opp]; lia. Qed.

Lemma RZ_monotone (N N' : Z) : N <= N' -> RZ N <= RZ N'.
Proof.
  intros HN.
  destruct N as [|p|p]; destruct N' as [|p'|p']; cbn [RZ]; try lia.
  - pose proof (RZpos_pos (Zpos p')). lia.
  - apply RZpos_monotone; lia.
  - pose proof (RZpos_pos (Zpos p)). lia.
  - pose proof (RZpos_pos (Zpos p)). pose proof (RZpos_pos (Zpos p')). lia.
  - pose proof (RZpos_monotone (Zpos p') (Zpos p)). lia.
Qed.

Lemma RZ_bounds (N : Z) : - INF <= RZ N <= INF.
Proof.
  destruct N as [|p|p]; cbn [RZ].
  - unfold INF. pose proof (pow2_pos 2100). lia.
  - pose proof (RZpos_le_INF (Zpos p)). pose proof (RZpos_pos (Zpos p)). lia.
  - pose proof (RZpos_le_INF (Zpos p)). pose proof (RZpos_pos (Zpos p)). lia.
Qed.

Lemma fexp_fexp64 (x : Z) : fexp 53 1024 x = fexp64 x.
Proof. reflexivity. Qed.

Ltac bool_cases :=
  repeat match goal with
         | |- context [?a <=? ?b] => destruct (Z.leb_spec a b)
         | |- context [?a =? ?b] => destruct (Z.eqb_spec a b)
         | |- context [?a <? ?b] => destruct (Z.ltb_spec a b)
         end.

Lemma shr_1_nonneg (m : Z) (r s : bool) :
  0 <= m ->
  shr_1 (Build_shr_record m r s)
  = Build_shr_record (Z.div2 m) (Z.odd m) (r || s).
Proof. intros Hm. destruct m as [|[p|p|]|p]; try lia; reflexivity. Qed.

Lemma shr_inv_start (N : Z) :
  0 <= N -> shr_inv 0 N (Build_shr_record N false false).
Proof.
  intros HN. unfold shr_inv. cbn [shr_m shr_r shr_s].
  rewrite Z.pow_0_r, Z.mul_1_r, Z.sub_diag. cbn. lia.
Qed.

Lemma shr_inv_step (n N : Z) (mrs : shr_record) :
  0 <= n -> shr_inv n N mrs -> shr_inv (n + 1) N (shr_1 mrs).
Proof.
  intros Hn (Hm & Hrem & Hr & Hs). destruct mrs as [m r s].
  cbn [shr_m shr_r shr_s] in *. rewrite (shr_1_nonneg m r s Hm).
  unfold shr_inv. cbn [shr_m shr_r shr_s].
  pose proof (pow2_pos n Hn) as HP.
  rewrite Z.pow_add_r, Z.pow_1_r by lia.
  pose proof (Z.div2_odd m) as Hdiv.
  assert (Hd2 : 0 <= Z.div2 m) by (apply Z.div2_nonneg; lia).
  set (P := 2 ^ n) in *. set (q := Z.div2 m) in *.
  subst r s.
  destruct (Z.odd m); cbn [Z.b2z] in Hdiv.
  - (* odd *)
    assert (E : N - q * (P * 2) = N - m * P + P) by nia.
    rewrite E. split; [lia|]. split; [lia|].
    split; bool_cases; cbn; try reflexivity; lia.
  - assert (E : N - q * (P * 2) = N - m * P) by nia.
    rewrite E. split; [lia|]. split; [lia|].
    split; bool_cases; cbn; try reflexivity; lia.
Qed.

Lemma shr_inv_iter (p : positive) (n N : Z) (mrs : shr_record) :
  0 <= n -> shr_inv n N mrs -> shr_inv (n + Zpos p) N (iter_pos shr_1 p mrs).
Proof.
  revert n mrs. induction p as [p IH|p IH|]; intros n mrs Hn Hinv;
    cbn [iter_pos].
  - replace (n + Zpos p~1) with (n + 1 + Zpos p + Zpos p) by lia.
    apply IH; [lia|]. apply IH; [lia|]. now apply shr_inv_step.
  - replace (n + Zpos p~0) with (n + Zpos p + Zpos p) by lia.
    apply IH; [lia|]. now apply IH.
  - now apply shr_inv_step.
Qed.

(** Rounding what the shift has kept is rounding to nearest even. *)
Lemma shr_inv_round (n N : Z) (mrs : shr_record) :
  0 <= n -> shr_inv n N mrs ->
  round_nearest_even (shr_m mrs) (loc_of_shr_record mrs) = rne n N.
Proof.
  intros Hn (Hm & Hrem & Hr & Hs). destruct mrs as [m r s].
  cbn [shr_m shr_r shr_s] in *.
  pose proof (pow2_pos n Hn) as HP.
  assert (Hq : N / 2 ^ n = m).
  { symmetry. apply (Z.div_unique N (2 ^ n) m (N - m * 2 ^ n)); lia. }
  assert (Hmod : N mod 2 ^ n = N - m * 2 ^ n).
  { symmetry. apply (Z.mod_unique N (2 ^ n) m (N - m * 2 ^ n)); lia. }
  unfold rne. rewrite Hq, Hmod. subst r s.
  set (rem := N - m * 2 ^ n) in *. set (P := 2 ^ n) in *.
  destruct (Z.compare_spec (2 * rem) P); bool_cases; cbn; try reflexivity;
    lia.
Qed.

(** The first shift of [binary_round_aux]. *)
Lemma shr_fexp_spec (m e : Z) :
  0 <= m ->
  exists mrs,
    shr_fexp 53 1024 m e loc_Exact
    = (mrs, e + Z.max (fexp64 (Zdigits2 m + e) - e) 0) /\
    shr_inv (Z.max (fexp64 (Zdigits2 m + e) - e) 0) m mrs.
Proof.
  intros Hm. unfold shr_fexp, shr. rewrite fexp_fexp64.
  cbn [shr_record_of_loc].
  destruct (fexp64 (Zdigits2 m + e) - e) as [|p|p] eqn:E.
  - eexists. split; [f_equal; cbn; lia|]. apply shr_inv_start. lia.
  - eexists. split; [reflexivity|].
    replace (Z.max (Zpos p) 0) with (0 + Zpos p) by lia.
    apply shr_inv_iter; [lia|]. apply shr_inv_start. lia.
  - eexists. split; [f_equal; cbn; lia|]. apply shr_inv_start. lia.
Qed.

Lemma binary_round_aux_tail (s : bool) (m e : Z) (l : location) :
  binary_round_aux 53 1024 s m e l
  = let '(mrs, e') := shr_fexp 53 1024 m e l in
    tail s (round_nearest_even (shr_m mrs) (loc_of_shr_record mrs)) e'.
Proof. reflexivity. Qed.

Lemma tail_canonical (s : bool) (m : positive) (e : Z) :
  fexp64 (Zpos (digits2_pos m) + e) <= e ->
  tail s (Zpos m) e
  = if e <=? 971 then S754_finite s m e else S754_infinity s.
Proof.
  intros Hc. unfold tail, shr_fexp, shr. rewrite fexp_fexp64.
  cbn [Zdigits2 shr_record_of_loc].
  destruct (fexp64 (Zpos (digits2_pos m) + e) - e) as [|p|p] eqn:E;
    try lia; reflexivity.
Qed.

Lemma tail_carry (s : bool) (e : Z) :
  -1074 <= e ->
  tail s (2 ^ 53) e
  = if e + 1 <=? 971 then S754_finite s (2 ^ 52)%positive (e + 1)
    else S754_infinity s.
Proof.
  intros He. unfold tail, shr_fexp, shr. rewrite fexp_fexp64.
  change (Zdigits2 (2 ^ 53)) with 54.
  assert (E : fexp64 (54 + e) - e = 1) by (unfold fexp64; lia).
  rewrite E. reflexivity.
Qed.

Lemma rne_0 (N : Z) : rne 0 N = N.
Proof.
  pose proof (rne_exact 0 N ltac:(lia)) as H.
  now rewrite Z.pow_0_r, Z.mul_1_r in H.
Qed.

(** What [tail] returns on a rounded mantissa of at most 53 digits, or on
    [2^53]. *)
Lemma tail_value (s : bool) (m1 E : Z) :
  -1074 <= E ->
  0 < m1 <= 2 ^ 53 ->
  (E = -1074 \/ 2 ^ 52 <= m1) ->
  is_nan_sf (tail s m1 E) = false /\
  Vx (tail s m1 E)
  = signed s (if m1 * 2 ^ (E + 1074) <? 2 ^ 2098
              then m1 * 2 ^ (E + 1074) else INF).
Proof.
  intros HE Hm1 Hnorm.
  pose proof (pow2_pos (E + 1074) ltac:(lia)) as HP.
  destruct (Z.eq_dec m1 (2 ^ 53)) as [->|Hne].
  - rewrite tail_carry by lia.
    destruct (Z.leb_spec (E + 1) 971) as [L|L].
    + split; [reflexivity|]. cbn [Vx]. unfold signed.
      replace (E + 1 + 1074) with (E + 1074 + 1) by lia.
      rewrite Z.pow_add_r, Z.pow_1_r by lia.
      change (Zpos (2 ^ 52)) with (2 ^ 52).
      assert (2 ^ (E + 1074) <= 2 ^ 2044) by (apply Z.pow_le_mono_r; lia).
      assert (Hlt : 2 ^ 53 * 2 ^ (E + 1074) < 2 ^ 2098).
      { change (2 ^ 2098) with (2 ^ 53 * (2 * 2 ^ 2044)). lia. }
      destruct (Z.ltb_spec (2 ^ 53 * 2 ^ (E + 1074)) (2 ^ 2098)); [|lia].
      destruct s; lia.
    + split; [reflexivity|]. cbn [Vx]. unfold signed.
      assert (2 ^ 2045 <= 2 ^ (E + 1074)) by (apply Z.pow_le_mono_r; lia).
      assert (Hge : 2 ^ 2098 <= 2 ^ 53 * 2 ^ (E + 1074)).
      { change (2 ^ 2098) with (2 ^ 53 * 2 ^ 2045). lia. }
      destruct (Z.ltb_spec (2 ^ 53 * 2 ^ (E + 1074)) (2 ^ 2098)); [lia|].
      reflexivity.
  - destruct m1 as [|m|m]; try lia.
    assert (Hd : Zpos (digits2_pos m) <= 53).
    { pose proof (digits2_pos_bounds m) as HB.
      destruct (Z.le_gt_cases (Zpos (digits2_pos m)) 53) as [L|G]; [exact L|].
      assert (2 ^ 53 <= 2 ^ (Zpos (digits2_pos m) - 1))
        by (apply Z.pow_le_mono_r; lia).
      lia. }
    rewrite tail_canonical by (unfold fexp64; lia).
    destruct (Z.leb_spec E 971) as [L|L].
    + split; [reflexivity|]. cbn [Vx]. unfold signed.
      assert (2 ^ (E + 1074) <= 2 ^ 2045) by (apply Z.pow_le_mono_r; lia).
      assert (Hlt : Zpos m * 2 ^ (E + 1074) < 2 ^ 2098).
      { change (2 ^ 2098) with (2 ^ 53 * 2 ^ 2045). nia. }
      destruct (Z.ltb_spec (Zpos m * 2 ^ (E + 1074)) (2 ^ 2098)); [|lia].
      reflexivity.
    + split; [reflexivity|]. cbn [Vx]. unfold signed.
      assert (2 ^ 2046 <= 2 ^ (E + 1074)) by (apply Z.pow_le_mono_r; lia).
      assert (Hge : 2 ^ 2098 <= Zpos m * 2 ^ (E + 1074)).
      { change (2 ^ 2098) with (2 ^ 52 * 2 ^ 2046). nia. }
      destruct (Z.ltb_spec (Zpos m * 2 ^ (E + 1074)) (2 ^ 2098)); [lia|].
      reflexivity.
Qed.

(** [binary_round_aux] on an exact mantissa whose exponent is not above the
    one of the format. *)
Lemma binary_round_aux_spec (s : bool) (m : positive) (e : Z) :
  -1074 <= e ->
  e <= fexp64 (Zpos (digits2_pos m) + e) ->
  is_nan_sf (binary_round_aux 53 1024 s (Zpos m) e loc_Exact) = false /\
  Vx (binary_round_aux 53 1024 s (Zpos m) e loc_Exact)
  = signed s (RZpos (Zpos m * 2 ^ (e + 1074))).
Proof.
  intros He Hc. rewrite binary_round_aux_tail.
  destruct (shr_fexp_spec (Zpos m) e ltac:(lia)) as (mrs & -> & Hinv).
  cbn [Zdigits2] in *.
  set (d := Zpos (digits2_pos m)) in *.
  set (E := fexp64 (d + e)) in *.
  assert (Hk : Z.max (E - e) 0 = E - e) by lia.
  rewrite Hk in *. replace (e + (E - e)) with E by lia.
  rewrite (shr_inv_round (E - e) (Zpos m) mrs ltac:(lia) Hinv).
  pose proof (digits2_pos_bounds m) as HB. fold d in HB.
  assert (Hdpos : 0 < d) by (unfold d; lia).
  pose proof (pow2_pos (e + 1074) ltac:(lia)) as HP.
  pose proof (pow2_pos (E - e) ltac:(lia)) as HQ.
  (* the rounding of the scaled value *)
  assert (HdN : Zdigits2 (Zpos m * 2 ^ (e + 1074)) = d + (e + 1074)).
  { rewrite Zdigits2_shift by lia. reflexivity. }
  assert (HkN : Z.max (Zdigits2 (Zpos m * 2 ^ (e + 1074)) - 53) 0
                = (E - e) + (e + 1074)).
  { rewrite HdN. unfold E, fexp64. lia. }
  unfold RZpos. rewrite HkN.
  rewrite (rne_shift (E - e) (e + 1074) (Zpos m)) by lia.
  replace (E - e + (e + 1074)) with (E + 1074) by lia.
  (* bounds on the rounded mantissa *)
  pose proof (rne_bounds (E - e) (Zpos m) ltac:(lia)) as Hb.
  assert (Hm1 : 0 < rne (E - e) (Zpos m) <= 2 ^ 53
                /\ (E = -1074 \/ 2 ^ 52 <= rne (E - e) (Zpos m))).
  { destruct (Z.eq_dec E e) as [Ee|Ee].
    - rewrite Ee, Z.sub_diag, rne_0.
      assert (Hd53 : d <= 53) by (unfold E, fexp64 in Ee; lia).
      assert (2 ^ d <= 2 ^ 53) by (apply Z.pow_le_mono_r; lia).
      split; [lia|].
      destruct (Z.eq_dec e (-1074)) as [->|Hne]; [now left|right].
      assert (d = 53) by (unfold E, fexp64 in Ee; lia).
      replace (2 ^ 52) with (2 ^ (d - 1)) by (now subst d; rewrite H0).
      lia.
    - assert (HE : E = d + e - 53) by (unfold E, fexp64 in *; lia).
      assert (Hq : 2 ^ 52 <= Zpos m / 2 ^ (E - e) < 2 ^ 53).
      { split.
        - apply Z.div_le_lower_bound; [lia|].
          rewrite Z.mul_comm, <- Z.pow_add_r by lia.
          replace (52 + (E - e)) with (d - 1) by lia. lia.
        - apply Z.div_lt_upper_bound; [lia|].
          rewrite Z.mul_comm, <- Z.pow_add_r by lia.
          replace (53 + (E - e)) with d by lia. lia. }
      split; [lia|]. right. lia. }
  destruct Hm1 as (Hm1 & Hnorm).
  apply tail_value; [unfold E, fexp64; lia|exact Hm1|exact Hnorm].
Qed.

Lemma iter_xO (p : positive) (m : positive) :
  Zpos (Pos.iter xO m p) = Zpos m * 2 ^ Zpos p.
Proof.
  induction p as [|p IH] using Pos.peano_ind.
  - cbn. lia.
  - rewrite Pos.iter_succ, Pos2Z.inj_xO, IH, Pos2Z.inj_succ.
    rewrite Z.pow_succ_r by lia. lia.
Qed.

Lemma shl_align_spec (m : positive) (e e' : Z) :
  exists mz ez,
    shl_align m e e' = (mz, ez) /\
    ez = Z.min e e' /\
    Zpos mz = Zpos m * 2 ^ (e - ez).
Proof.
  unfold shl_align. destruct (e' - e) as [|p|p] eqn:E.
  - exists m, e. repeat split; [lia|]. rewrite Z.sub_diag. cbn. lia.
  - exists m, e. repeat split; [lia|]. rewrite Z.sub_diag. cbn. lia.
  - eexists _, e'. repeat split; [lia|].
    rewrite iter_xO. f_equal. f_equal. lia.
Qed.

(** [binary_round] rounds the value it is given. *)
Lemma binary_round_spec (s : bool) (m : positive) (e : Z) :
  -1074 <= e ->
  is_nan_sf (binary_round 53 1024 s m e) = false /\
  Vx (binary_round 53 1024 s m e)
  = signed s (RZpos (Zpos m * 2 ^ (e + 1074))).
Proof.
  intros He. unfold binary_round. rewrite fexp_fexp64.
  destruct (shl_align_spec m e (fexp64 (Zpos (digits2_pos m) + e)))
    as (mz & ez & -> & Hez & Hmz).
  assert (Hez' : -1074 <= ez) by (unfold fexp64 in Hez; lia).
  assert (Hval : Zpos mz * 2 ^ (ez + 1074) = Zpos m * 2 ^ (e + 1074)).
  { rewrite Hmz, <- Z.mul_assoc, <- Z.pow_add_r by lia.
    f_equal. f_equal. lia. }
  assert (Hdig : Zpos (digits2_pos mz) + ez = Zpos (digits2_pos m) + e).
  { change (Zpos (digits2_pos mz)) with (Zdigits2 (Zpos mz)).
    rewrite Hmz, Zdigits2_shift by lia. cbn [Zdigits2]. lia. }
  rewrite <- Hval. apply binary_round_aux_spec; [exact Hez'|].
  rewrite Hdig. lia.
Qed.

Lemma binary_normalize_spec (M e : Z) :
  -1074 <= e ->
  is_nan_sf (binary_normalize 53 1024 M e false) = false /\
  Vx (binary_normalize 53 1024 M e false) = RZ (M * 2 ^ (e + 1074)).
Proof.
  intros He. pose proof (pow2_pos (e + 1074) ltac:(lia)) as HP.
  destruct M as [|m|m]; cbn [binary_normalize].
  - split; reflexivity.
  - destruct (binary_round_spec false m e He) as (Hn & Hv).
    split; [exact Hn|]. rewrite Hv. cbn [signed].
    destruct (Zpos m * 2 ^ (e + 1074)) eqn:E; try lia. reflexivity.
  - destruct (binary_round_spec true m e He) as (Hn & Hv).
    split; [exact Hn|]. rewrite Hv. cbn [signed].
    destruct (Zpos m * 2 ^ (e + 1074)) as [|v|v] eqn:E; try lia.
    assert (E' : Zneg m * 2 ^ (e + 1074) = Zneg v) by lia.
    rewrite E'. reflexivity.
Qed.

(** ** Valid floats *)

Lemma valid_finite (s : bool) (m : positive) (e : Z) :
  valid_binary (S754_finite s m e) = true ->
  e = fexp64 (Zpos (digits2_pos m) + e) /\ e <= 971.
Proof.
  cbn [SpecFloat.valid_binary]. unfold bounded, canonical_mantissa.
  rewrite fexp_fexp64. intros H. apply andb_prop in H as (Hc & Hb).
  apply Z.eqb_eq in Hc. apply Z.leb_le in Hb. change (e <= 971) in Hb. lia.
Qed.

Lemma valid_finite_bounds (s : bool) (m : positive) (e : Z) :
  valid_binary (S754_finite s m e) = true ->
  -1074 <= e <= 971 /\ Zpos (digits2_pos m) <= 53 /\
  (e = -1074 \/ Zpos (digits2_pos m) = 53) /\
  0 < Zpos m * 2 ^ (e + 1074) < 2 ^ 2098.
Proof.
  intros Hv. apply valid_finite in Hv as (Hc & Hb).
  assert (He : -1074 <= e) by (unfold fexp64 in Hc; lia).
  assert (Hd : Zpos (digits2_pos m) <= 53) by (unfold fexp64 in Hc; lia).
  split; [lia|]. split; [exact Hd|].
  split; [unfold fexp64 in Hc; lia|].
  pose proof (digits2_pos_bounds m) as HB.
  pose proof (pow2_pos (e + 1074) ltac:(lia)) as HP.
  assert (2 ^ Zpos (digits2_pos m) <= 2 ^ 53) by (apply Z.pow_le_mono_r; lia).
  assert (2 ^ (e + 1074) <= 2 ^ 2045) by (apply Z.pow_le_mono_r; lia).
  split; [lia|]. change (2 ^ 2098) with (2 ^ 53 * 2 ^ 2045). nia.
Qed.

Lemma RZpos_valid (s : bool) (m : positive) (e : Z) :
  valid_binary (S754_finite s m e) = true ->
  RZpos (Zpos m * 2 ^ (e + 1074)) = Zpos m * 2 ^ (e + 1074).
Proof.
  intros Hv. pose proof (valid_finite _ _ _ Hv) as (Hc & _).
  pose proof (valid_finite_bounds _ _ _ Hv) as (He & Hd & _ & Hlt).
  unfold RZpos. rewrite Zdigits2_shift by lia. cbn [Zdigits2].
  assert (Hk : Z.max (Zpos (digits2_pos m) + (e + 1074) - 53) 0 = e + 1074)
    by (unfold fexp64 in Hc; lia).
  rewrite Hk, rne_exact by lia.
  destruct (Z.ltb_spec (Zpos m * 2 ^ (e + 1074)) (2 ^ 2098)); [reflexivity|lia].
Qed.

Lemma RZ_overflow (N : Z) : 2 ^ 2098 <= N -> RZ N = INF.
Proof.
  intros HN. pose proof (RZ_monotone _ _ HN) as Hm.
  pose proof (RZ_bounds N) as Hb.
  assert (E : RZ (2 ^ 2098) = INF) by (vm_compute; reflexivity).
  lia.
Qed.

(** Rounding leaves the value of a float as it is. *)
Lemma RZ_valid (x : spec_float) :
  valid_binary x = true -> RZ (Vx x) = Vx x.
Proof.
  intros Hv. destruct x as [s|s| |s m e]; cbn [Vx]; try reflexivity.
  - destruct s.
    + rewrite RZ_opp, RZ_overflow; [reflexivity|]. pose proof INF_big. lia.
    + apply RZ_overflow. pose proof INF_big. lia.
  - pose proof (valid_finite_bounds _ _ _ Hv) as (_ & _ & _ & Hlt).
    pose proof (RZpos_valid _ _ _ Hv) as HR.
    destruct s.
    + rewrite RZ_opp. f_equal.
      destruct (Zpos m * 2 ^ (e + 1074)) eqn:E; try lia. exact HR.
    + destruct (Zpos m * 2 ^ (e + 1074)) eqn:E; try lia. exact HR.
Qed.

Lemma Vx_bounds (x : spec_float) :
  valid_binary x = true -> - INF <= Vx x <= INF.
Proof. intros Hv. rewrite <- (RZ_valid x Hv). apply RZ_bounds. Qed.

(** ** The order *)

Lemma canonical_lt (s1 s2 : bool) (m1 m2 : positive) (e1 e2 : Z) :
  valid_binary (S754_finite s1 m1 e1) = true ->
  valid_binary (S754_finite s2 m2 e2) = true ->
  e1 < e2 ->
  Zpos m1 * 2 ^ (e1 + 1074) < Zpos m2 * 2 ^ (e2 + 1074).
Proof.
  intros H1 H2 He.
  pose proof (valid_finite_bounds _ _ _ H1) as (He1 & Hd1 & _ & _).
  pose proof (valid_finite_bounds _ _ _ H2) as (He2 & Hd2 & Hn2 & _).
  pose proof (digits2_pos_bounds m1) as HB1.
  pose proof (digits2_pos_bounds m2) as HB2.
  assert (Hd : Zpos (digits2_pos m2) = 53) by lia.
  rewrite Hd in HB2. change (2 ^ (53 - 1)) with (2 ^ 52) in HB2.
  assert (2 ^ Zpos (digits2_pos m1) <= 2 ^ 53) by (apply Z.pow_le_mono_r; lia).
  pose proof (pow2_pos (e1 + 1074) ltac:(lia)) as HP.
  assert (Hstep : 2 * 2 ^ (e1 + 1074) <= 2 ^ (e2 + 1074)).
  { rewrite <- Z.pow_succ_r by lia. apply Z.pow_le_mono_r; lia. }
  change (2 ^ 53) with (2 * 2 ^ 52) in *. nia.
Qed.

Lemma compare_cont_Eq (m1 m2 : positive) :
  Pos.compare_cont Eq m1 m2 = (Zpos m1 ?= Zpos m2).
Proof. reflexivity. Qed.

Lemma SFcompare_finite_pos (m1 m2 : positive) (e1 e2 : Z) :
  valid_binary (S754_finite false m1 e1) = true ->
  valid_binary (S754_finite false m2 e2) = true ->
  match e1 ?= e2 with
  | Lt => Lt
  | Gt => Gt
  | Eq => Pos.compare_cont Eq m1 m2
  end
  = (Zpos m1 * 2 ^ (e1 + 1074) ?= Zpos m2 * 2 ^ (e2 + 1074)).
Proof.
  intros H1 H2.
  destruct (Z.compare_spec e1 e2) as [E|L|G].
  - subst e2. rewrite compare_cont_Eq.
    pose proof (valid_finite_bounds _ _ _ H1) as (He1 & _).
    pose proof (pow2_pos (e1 + 1074) ltac:(lia)) as HP.
    destruct (Z.compare_spec (Zpos m1) (Zpos m2));
      destruct (Z.compare_spec (Zpos m1 * 2 ^ (e1 + 1074))
                  (Zpos m2 * 2 ^ (e1 + 1074)));
      try reflexivity; nia.
  - pose proof (canonical_lt _ _ _ _ _ _ H1 H2 L) as Hlt.
    symmetry. now apply Z.compare_lt_iff.
  - pose proof (canonical_lt _ _ _ _ _ _ H2 H1 G) as Hlt.
    symmetry. now apply Z.compare_gt_iff.
Qed.

Lemma SFcompare_Vx (x y : spec_float) :
  valid_binary x = true -> valid_binary y = true ->
  is_nan_sf x = false -> is_nan_sf y = false ->
  SFcompare x y = Some (Vx x ?= Vx y).
Proof.
  intros Hx Hy Nx Ny. pose proof INF_big as HI.
  assert (HI0 : 0 < 2 ^ 2098) by (apply pow2_pos; lia).
  destruct x as [sx|sx| |sx mx ex]; try discriminate;
    destruct y as [sy|sy| |sy my ey]; try discriminate;
    try pose proof (valid_finite_bounds _ _ _ Hx) as (_ & _ & _ & Bx);
    try pose proof (valid_finite_bounds _ _ _ Hy) as (_ & _ & _ & By);
    cbn [SFcompare Vx].
  - reflexivity.
  - f_equal. symmetry. destruct sy;
      [apply Z.compare_gt_iff | apply Z.compare_lt_iff]; lia.
  - f_equal. symmetry. destruct sy;
      [apply Z.compare_gt_iff | apply Z.compare_lt_iff]; lia.
  - f_equal. symmetry. destruct sx;
      [apply Z.compare_lt_iff | apply Z.compare_gt_iff]; lia.
  - f_equal. symmetry. destruct sx, sy;
      [apply Z.compare_eq_iff | apply Z.compare_lt_iff
       | apply Z.compare_gt_iff | apply Z.compare_eq_iff]; lia.
  - f_equal. symmetry. destruct sx, sy;
      [apply Z.compare_lt_iff | apply Z.compare_lt_iff
       | apply Z.compare_gt_iff | apply Z.compare_gt_iff]; lia.
  - f_equal. symmetry. destruct sx;
      [apply Z.compare_lt_iff | apply Z.compare_gt_iff]; lia.
  - f_equal. symmetry. destruct sx, sy;
      [apply Z.compare_gt_iff | apply Z.compare_lt_iff
       | apply Z.compare_gt_iff | apply Z.compare_lt_iff]; lia.
  - f_equal. destruct sx, sy.
    + assert (Hx' : valid_binary (S754_finite false mx ex) = true)
        by exact Hx.
      assert (Hy' : valid_binary (S754_finite false my ey) = true)
        by exact Hy.
      rewrite Z.compare_opp.
      rewrite <- (SFcompare_finite_pos my mx ey ex Hy' Hx').
      rewrite !compare_cont_Eq.
      destruct (Z.compare_spec ex ey); destruct (Z.compare_spec ey ex);
        try lia; try reflexivity.
      destruct (Z.compare_spec (Zpos mx) (Zpos my));
        destruct (Z.compare_spec (Zpos my) (Zpos mx));
        try lia; reflexivity.
    + symmetry. apply Z.compare_lt_iff. lia.
    + symmetry. apply Z.compare_gt_iff. lia.
    + now apply SFcompare_finite_pos.
Qed.

Lemma SFleb_Vx (x y : spec_float) :
  valid_binary x = true -> valid_binary y = true ->
  is_nan_sf x = false -> is_nan_sf y = false ->
  SFleb x y = (Vx x <=? Vx y).
Proof.
  intros Hx Hy Nx Ny. unfold SFleb. rewrite (SFcompare_Vx x y Hx Hy Nx Ny).
  unfold Z.leb. now destruct (Vx x ?= Vx y).
Qed.

Lemma SFltb_Vx (x y : spec_float) :
  valid_binary x = true -> valid_binary y = true ->
  is_nan_sf x = false -> is_nan_sf y = false ->
  SFltb x y = (Vx x <? Vx y).
Proof.
  intros Hx Hy Nx Ny. unfold SFltb. rewrite (SFcompare_Vx x y Hx Hy Nx Ny).
  unfold Z.ltb. now destruct (Vx x ?= Vx y).
Qed.

(** ** Addition and subtraction round the exact result *)

Lemma cond_Zopp_signed (s : bool) (v : Z) : cond_Zopp s v = signed s v.
Proof. reflexivity. Qed.

Lemma Vx_finite (s : bool) (m : positive) (e : Z) :
  Vx (S754_finite s m e) = signed s (Zpos m * 2 ^ (e + 1074)).
Proof. reflexivity. Qed.

Lemma aligned_sum (sx sy : bool) (mx my : positive) (ex ey : Z) :
  -1074 <= ex -> -1074 <= ey ->
  (signed sx (Zpos (fst (shl_align mx ex (Z.min ex ey))))
   + signed sy (Zpos (fst (shl_align my ey (Z.min ex ey)))))
  * 2 ^ (Z.min ex ey + 1074)
  = signed sx (Zpos mx * 2 ^ (ex + 1074))
    + signed sy (Zpos my * 2 ^ (ey + 1074)).
Proof.
  intros Hx Hy.
  destruct (shl_align_spec mx ex (Z.min ex ey)) as (ax & ez & -> & Hez & Hax).
  destruct (shl_align_spec my ey (Z.min ex ey)) as (ay & ez' & -> & Hez' & Hay).
  cbn [fst]. rewrite Hax, Hay.
  replace ez with (Z.min ex ey) by lia. replace ez' with (Z.min ex ey) by lia.
  set (ez0 := Z.min ex ey).
  assert (Ex : 2 ^ (ex + 1074) = 2 ^ (ex - ez0) * 2 ^ (ez0 + 1074)).
  { rewrite <- Z.pow_add_r by lia. f_equal. lia. }
  assert (Ey : 2 ^ (ey + 1074) = 2 ^ (ey - ez0) * 2 ^ (ez0 + 1074)).
  { rewrite <- Z.pow_add_r by lia. f_equal. lia. }
  rewrite Ex, Ey. unfold signed. destruct sx, sy; ring.
Qed.

Lemma aligned_difference (sx sy : bool) (mx my : positive) (ex ey : Z) :
  -1074 <= ex -> -1074 <= ey ->
  (signed sx (Zpos (fst (shl_align mx ex (Z.min ex ey))))
   - signed sy (Zpos (fst (shl_align my ey (Z.min ex ey)))))
  * 2 ^ (Z.min ex ey + 1074)
  = signed sx (Zpos mx * 2 ^ (ex + 1074))
    - signed sy (Zpos my * 2 ^ (ey + 1074)).
Proof.
  intros Hx Hy.
  pose proof (aligned_sum sx (negb sy) mx my ex ey Hx Hy) as H.
  unfold signed in *. destruct sx, sy; cbn [negb] in H; lia.
Qed.

Lemma RZ_INF_plus (v : Z) : - 2 ^ 2098 < v -> RZ (INF + v) = INF.
Proof.
  intros Hv. apply RZ_overflow.
  assert (4 * 2 ^ 2098 = INF) by reflexivity. lia.
Qed.

Lemma RZ_minus_INF_plus (v : Z) : v < 2 ^ 2098 -> RZ (- INF + v) = - INF.
Proof.
  intros Hv. replace (- INF + v) with (- (INF + - v)) by lia.
  rewrite RZ_opp, RZ_INF_plus; lia.
Qed.

Lemma Vx_finite_range (x : spec_float) :
  valid_binary x = true ->
  match x with
  | S754_infinity _ | S754_nan => True
  | _ => - 2 ^ 2098 < Vx x < 2 ^ 2098
  end.
Proof.
  intros Hv. destruct x as [s|s| |s m e]; try exact I.
  - cbn. assert (0 < 2 ^ 2098) by (apply pow2_pos; lia). lia.
  - pose proof (valid_finite_bounds _ _ _ Hv) as (_ & _ & _ & B).
    cbn [Vx]. destruct s; lia.
Qed.

Lemma SFadd_spec (x y : spec_float) :
  valid_binary x = true -> valid_binary y = true ->
  is_nan_sf x = false -> is_nan_sf y = false ->
  (Vx x + Vx y <> 0 \/ Z.abs (Vx x) < INF) ->
  is_nan_sf (SFadd 53 1024 x y) = false /\
  Vx (SFadd 53 1024 x y) = RZ (Vx x + Vx y).
Proof.
  intros Hx Hy Nx Ny Hinf. pose proof INF_big as HI.
  assert (HI0 : 0 < 2 ^ 2098) by (apply pow2_pos; lia).
  pose proof (Vx_finite_range x Hx) as Rx.
  pose proof (Vx_finite_range y Hy) as Ry.
  pose proof (RZ_valid x Hx) as Ix. pose proof (RZ_valid y Hy) as Iy.
  destruct x as [sx|sx| |sx mx ex]; try discriminate;
    destruct y as [sy|sy| |sy my ey]; try discriminate.
  - (* zero, zero *)
    cbn [SFadd]. destruct sx, sy; split; reflexivity.
  - cbn [SFadd]. split; [reflexivity|]. now rewrite Z.add_0_l, Iy.
  - cbn [SFadd]. split; [reflexivity|]. now rewrite Z.add_0_l, Iy.
  - cbn [SFadd]. split; [reflexivity|]. now rewrite Z.add_0_r, Ix.
  - (* infinity, infinity *)
    cbn [Vx] in *. destruct sx, sy; cbn [SFadd]; try (exfalso; lia).
    + split; [reflexivity|]. cbn [Vx]. symmetry.
      apply RZ_minus_INF_plus. lia.
    + split; [reflexivity|]. cbn [Vx]. symmetry. apply RZ_INF_plus. lia.
  - cbn [SFadd]. split; [reflexivity|]. symmetry.
    change (Vx (S754_infinity sx)) with (if sx then - INF else INF).
    destruct sx; [apply RZ_minus_INF_plus | apply RZ_INF_plus]; lia.
  - cbn [SFadd]. split; [reflexivity|]. now rewrite Z.add_0_r, Ix.
  - cbn [SFadd]. split; [reflexivity|]. symmetry. rewrite Z.add_comm.
    change (Vx (S754_infinity sy)) with (if sy then - INF else INF).
    destruct sy; [apply RZ_minus_INF_plus | apply RZ_INF_plus]; lia.
  - (* finite, finite *)
    pose proof (valid_finite_bounds _ _ _ Hx) as (Bx & _).
    pose proof (valid_finite_bounds _ _ _ Hy) as (By & _).
    cbn [SFadd]. rewrite !cond_Zopp_signed, !Vx_finite.
    rewrite <- (aligned_sum sx sy mx my ex ey) by lia.
    apply binary_normalize_spec. lia.
Qed.

Lemma SFsub_spec (x y : spec_float) :
  valid_binary x = true -> valid_binary y = true ->
  is_nan_sf x = false -> is_nan_sf y = false ->
  (Vx x - Vx y <> 0 \/ Z.abs (Vx x) < INF) ->
  is_nan_sf (SFsub 53 1024 x y) = false /\
  Vx (SFsub 53 1024 x y) = RZ (Vx x - Vx y).
Proof.
  intros Hx Hy Nx Ny Hinf. pose proof INF_big as HI.
  assert (HI0 : 0 < 2 ^ 2098) by (apply pow2_pos; lia).
  pose proof (Vx_finite_range x Hx) as Rx.
  pose proof (Vx_finite_range y Hy) as Ry.
  pose proof (RZ_valid x Hx) as Ix. pose proof (RZ_valid y Hy) as Iy.
  destruct x as [sx|sx| |sx mx ex]; try discriminate;
    destruct y as [sy|sy| |sy my ey]; try discriminate.
  - cbn [SFsub]. destruct sx, sy; split; reflexivity.
  - cbn [SFsub]. split; [reflexivity|]. symmetry.
    change (Vx (S754_infinity (negb sy))) with (if negb sy then - INF else INF).
    change (Vx (S754_infinity sy)) with (if sy then - INF else INF).
    change (Vx (S754_zero sx)) with 0.
    destruct sy; cbn [negb].
    + replace (0 - - INF) with (INF + 0) by lia. apply RZ_INF_plus. lia.
    + replace (0 - INF) with (- INF + 0) by lia. apply RZ_minus_INF_plus. lia.
  - cbn [SFsub]. split; [reflexivity|].
    change (Vx (S754_zero sx)) with 0. rewrite Z.sub_0_l, RZ_opp, Iy.
    cbn [Vx]. destruct sy; cbn [negb]; lia.
  - cbn [SFsub]. split; [reflexivity|].
    change (Vx (S754_zero sy)) with 0. now rewrite Z.sub_0_r, Ix.
  - cbn [Vx] in *. destruct sx, sy; cbn [SFsub]; try (exfalso; lia).
    + split; [reflexivity|]. cbn [Vx]. symmetry.
      replace (- INF - INF) with (- INF + - INF) by lia.
      apply RZ_minus_INF_plus. lia.
    + split; [reflexivity|]. cbn [Vx]. symmetry.
      replace (INF - - INF) with (INF + INF) by lia.
      apply RZ_INF_plus. lia.
  - cbn [SFsub]. split; [reflexivity|]. symmetry.
    change (Vx (S754_infinity sx)) with (if sx then - INF else INF).
    destruct sx.
    + replace (- INF - Vx (S754_finite sy my ey))
        with (- INF + - Vx (S754_finite sy my ey)) by lia.
      apply RZ_minus_INF_plus. lia.
    + replace (INF - Vx (S754_finite sy my ey))
        with (INF + - Vx (S754_finite sy my ey)) by lia.
      apply RZ_INF_plus. lia.
  - cbn [SFsub]. split; [reflexivity|].
    change (Vx (S754_zero sy)) with 0. now rewrite Z.sub_0_r, Ix.
  - cbn [SFsub]. split; [reflexivity|]. symmetry.
    change (Vx (S754_infinity (negb sy))) with (if negb sy then - INF else INF).
    change (Vx (S754_infinity sy)) with (if sy then - INF else INF).
    destruct sy; cbn [negb].
    + replace (Vx (S754_finite sx mx ex) - - INF)
        with (INF + Vx (S754_finite sx mx ex)) by lia.
      apply RZ_INF_plus. lia.
    + replace (Vx (S754_finite sx mx ex) - INF)
        with (- INF + Vx (S754_finite sx mx ex)) by lia.
      apply RZ_minus_INF_plus. lia.
  - pose proof (valid_finite_bounds _ _ _ Hx) as (Bx & _).
    pose proof (valid_finite_bounds _ _ _ Hy) as (By & _).
    cbn [SFsub]. rewrite !cond_Zopp_signed, !Vx_finite.
    rewrite <- (aligned_difference sx sy mx my ex ey) by lia.
    apply binary_normalize_spec. lia.
Qed.

(** ** The sign of a product *)

Lemma tail_sign (m e : Z) :
  0 <= m ->
  is_nan_sf (tail false m e) = false /\ 0 <= Vx (tail false m e).
Proof.
  intros Hm. unfold tail.
  destruct (shr_fexp_spec m e Hm) as (mrs & -> & (Hq & _)).
  destruct (shr_m mrs) as [|q|q]; try lia.
  - split; [reflexivity|cbn; lia].
  - destruct (_ <=? _); split; try reflexivity.
    + cbn [Vx]. apply Z.mul_nonneg_nonneg; [lia|]. apply Z.pow_nonneg. lia.
    + cbn [Vx]. unfold INF. apply Z.pow_nonneg. lia.
Qed.

Lemma binary_round_aux_sign (m : positive) (e : Z) :
  is_nan_sf (binary_round_aux 53 1024 false (Zpos m) e loc_Exact) = false /\
  0 <= Vx (binary_round_aux 53 1024 false (Zpos m) e loc_Exact).
Proof.
  rewrite binary_round_aux_tail.
  destruct (shr_fexp_spec (Zpos m) e ltac:(lia)) as (mrs & -> & Hinv).
  assert (Hk : 0 <= Z.max (fexp64 (Zdigits2 (Zpos m) + e) - e) 0) by lia.
  rewrite (shr_inv_round _ _ _ Hk Hinv).
  apply tail_sign.
  pose proof (rne_bounds _ (Zpos m) Hk) as Hb.
  assert (0 <= Zpos m / 2 ^ Z.max (fexp64 (Zdigits2 (Zpos m) + e) - e) 0).
  { apply Z.div_pos; [lia|]. now apply pow2_pos. }
  lia.
Qed.

Lemma SFmul_nonneg (x y : spec_float) :
  is_nan_sf x = false -> is_nan_sf y = false ->
  match x with S754_infinity _ => False | _ => True end ->
  match y with S754_infinity _ => False | _ => True end ->
  match x with S754_finite true _ _ => False | _ => True end ->
  match y with S754_finite true _ _ => False | _ => True end ->
  is_nan_sf (SFmul 53 1024 x y) = false /\ 0 <= Vx (SFmul 53 1024 x y).
Proof.
  intros Nx Ny Fx Fy Sx Sy.
  destruct x as [sx|sx| |[|] mx ex]; try discriminate; try contradiction;
    destruct y as [sy|sy| |[|] my ey]; try discriminate; try contradiction;
    cbn [SFmul xorb]; try (split; [reflexivity|cbn; lia]).
  apply binary_round_aux_sign.
Qed.

(** ** The same on primitive floats *)

Lemma add_Vf (x y : float) :
  nanf x = false -> nanf y = false ->
  (Vf x + Vf y <> 0 \/ Z.abs (Vf x) < INF) ->
  nanf (x + y) = false /\ Vf (x + y) = RZ (Vf x + Vf y).
Proof.
  intros Nx Ny H. unfold nanf, Vf. rewrite add_spec.
  apply SFadd_spec; auto using Prim2SF_valid.
Qed.

Lemma sub_Vf (x y : float) :
  nanf x = false -> nanf y = false ->
  (Vf x - Vf y <> 0 \/ Z.abs (Vf x) < INF) ->
  nanf (x - y) = false /\ Vf (x - y) = RZ (Vf x - Vf y).
Proof.
  intros Nx Ny H. unfold nanf, Vf. rewrite sub_spec.
  apply SFsub_spec; auto using Prim2SF_valid.
Qed.

Lemma leb_Vf (x y : float) :
  nanf x = false -> nanf y = false ->
  PrimFloat.leb x y = (Vf x <=? Vf y).
Proof.
  intros Nx Ny. rewrite leb_spec. apply SFleb_Vx; auto using Prim2SF_valid.
Qed.

Lemma RZ_Vf (x : float) : RZ (Vf x) = Vf x.
Proof. apply RZ_valid, Prim2SF_valid. Qed.

Lemma is_amount_spec (x : float) :
  is_amount x ->
  nanf x = false /\ 0 <= Vf x < 2 ^ 2098 /\
  match Prim2SF x with
  | S754_zero _ | S754_finite false _ _ => True
  | _ => False
  end.
Proof.
  intros (H0 & Hinf). rewrite leb_spec in H0. rewrite ltb_spec in Hinf.
  change (Prim2SF 0) with (S754_zero false) in H0.
  change (Prim2SF infinity) with (S754_infinity false) in Hinf.
  pose proof (Vx_finite_range _ (Prim2SF_valid x)) as R.
  unfold nanf, Vf.
  destruct (Prim2SF x) as [s|[|]| |[|] m e]; try discriminate.
  - split; [reflexivity|]. split; [cbn in *; lia|exact I].
  - split; [reflexivity|]. split; [|exact I].
    cbn [Vx] in *. pose proof (Pos2Z.is_pos m).
    assert (0 <= 2 ^ (e + 1074)) by (apply Z.pow_nonneg; lia). nia.
Qed.

(** The product of an amount and a positive constant is not negative. *)
Lemma mul_amount (x c : float) :
  is_amount x ->
  match Prim2SF c with S754_finite false _ _ => True | _ => False end ->
  nanf (x * c) = false /\ 0 <= Vf (x * c).
Proof.
  intros Hx Hc. destruct (is_amount_spec x Hx) as (Nx & _ & Sx).
  unfold nanf, Vf in *. rewrite mul_spec.
  apply SFmul_nonneg; try assumption;
    destruct (Prim2SF c) as [s|s| |[|] m e]; try contradiction;
    try reflexivity; try exact I;
    destruct (Prim2SF x) as [s'|s'| |[|] m' e']; try contradiction;
    try discriminate; exact I.
Qed.

(** Adding to a running total that is not negative. *)
Lemma add_nonneg (x y : float) :
  nanf x = false -> nanf y = false -> 0 <= Vf x -> 0 <= Vf y ->
  nanf (x + y) = false /\ Vf (x + y) = RZ (Vf x + Vf y) /\
  Vf x <= Vf (x + y) /\ Vf y <= Vf (x + y).
Proof.
  intros Nx Ny Hx Hy.
  destruct (add_Vf x y Nx Ny) as (N & V).
  { destruct (Z.eq_dec (Vf x + Vf y) 0) as [E|E]; [right|now left].
    assert (Vf x = 0) by lia. pose proof INF_big.
    assert (0 < 2 ^ 2098) by (apply pow2_pos; lia). lia. }
  split; [exact N|]. split; [exact V|]. rewrite V.
  split.
  - rewrite <- (RZ_Vf x) at 1. apply RZ_monotone. lia.
  - rewrite <- (RZ_Vf y) at 1. apply RZ_monotone. lia.
Qed.

End RoundingProperties.

(** ** C1, C4: the seller's net proceeds *)

(** C1, counterexample: at the price of the specification's own scenario,
    950000 with an MLS listing, the net proceeds are not the price less the
    costs with 25000 of preparation: the six preparation figures of the
    source add up to 24500, so the net is 872522 where the formula with
    25000 gives 872022, on either carrier. *)
Lemma seller_net_listed_not_25000 :
  SellerNet.net (calculate_seller_net (num := float) (lit 950000) (Some true))
    = lit 872522 /\
  PrimFloat.eqb
    (SellerNet.net (calculate_seller_net (lit 950000) (Some true)))
    (lit 950000
     - (lit 950000 * lit 0.03 + lit 950000 * lit 0.02 + lit 25000 + lit 2933
        + lit 950000 * lit 0.0011 + lit 1500))%py
    = false /\
  Qeq_bool
    (SellerNet.net (calculate_seller_net 950000 (Some true)))
    (950000 - (950000 * 0.03 + 950000 * 0.02 + 25000 + 2933
               + 950000 * 0.0011 + 1500))
    = false.
Proof. repeat split; reflexivity. Qed.

(** C1: for every price, the net proceeds of an MLS listing are
    [price - (price*0.03 + price*0.02 + 24500 + 2933 + price*0.0011 + 1500)],
    those of an off-market sale are
    [price - (price*0.03 + price*0.0011 + 1500)], and in every call the
    entry [net] is [price] less the entry [total_costs].  On binary64 the
    right-hand sides are evaluated as Python evaluates them, left to
    right. *)
Theorem seller_net_formula :
  (forall price : float,
      SellerNet.net (calculate_seller_net price (Some true))
      = (price - (price * lit 0.03 + price * lit 0.02 + lit 24500 + lit 2933
                  + price * lit 0.0011 + lit 1500))%py /\
      SellerNet.net (calculate_seller_net price (Some false))
      = (price - (price * lit 0.03 + price * lit 0.0011 + lit 1500))%py) /\
  (forall price : Q,
      SellerNet.net (calculate_seller_net price (Some true))
      == price - (price * 0.03 + price * 0.02 + 24500 + 2933
                  + price * 0.0011 + 1500) /\
      SellerNet.net (calculate_seller_net price (Some false))
      == price - (price * 0.03 + price * 0.0011 + 1500)) /\
  (forall (num : Type) (arith : PyNum num) (price : num)
          (is_mls : option bool),
      SellerNet.net (calculate_seller_net price is_mls)
      = (price - SellerNet.total_costs (calculate_seller_net price is_mls))%py).
Proof.
  split; [|split].
  - intros price. split.
    + apply Binary64.net_listed_binary64.
    + apply Binary64.net_direct_binary64.
  - intros price. split.
    + apply Exact.net_listed.
    + apply Exact.net_direct.
  - reflexivity.
Qed.

(** [is_mls] left out is [is_mls=True]. *)
Lemma seller_net_default (num : Type) (arith : PyNum num) (price : num) :
  calculate_seller_net price None = calculate_seller_net price (Some true).
Proof. reflexivity. Qed.

(** On binary64 the listing nets no more than the off-market sale at any
    price that is a number, not negative and not infinite.  The total of
    the listing's costs adds three amounts that are not negative to the
    total of the off-market sale, and every sum of the two totals is
    rounded by the same monotone rounding [RZ]. *)
Section SellerNetBinary64.

Local Open Scope float_scope.

Lemma net_direct_ge_listed_binary64 (p : float) :
  is_amount p ->
  PrimFloat.leb
    (SellerNet.net (calculate_seller_net p (Some true)))
    (SellerNet.net (calculate_seller_net p (Some false))) = true.
Proof.
  intros Hp.
  rewrite Binary64.net_listed_binary64, Binary64.net_direct_binary64.
  change (@add float binary64) with PrimFloat.add.
  change (@sub float binary64) with PrimFloat.sub.
  change (@mul float binary64) with PrimFloat.mul.
  destruct (is_amount_spec p Hp) as (Np & (Hp0 & Hp1) & _).
  destruct (mul_amount p (lit 0.03) Hp) as (NA & HA);
    [vm_compute; exact I|].
  destruct (mul_amount p (lit 0.02) Hp) as (NB & HB);
    [vm_compute; exact I|].
  destruct (mul_amount p (lit 0.0011) Hp) as (NT & HT);
    [vm_compute; exact I|].
  set (A := p * lit 0.03) in *. set (B := p * lit 0.02) in *.
  set (T := p * lit 0.0011) in *.
  assert (N1 : nanf (lit 24500 : float) = false) by reflexivity.
  assert (N2 : nanf (lit 2933 : float) = false) by reflexivity.
  assert (N3 : nanf (lit 1500 : float) = false) by reflexivity.
  assert (H1 : (0 <= Vf (lit 24500))%Z) by (vm_compute; discriminate).
  assert (H2 : (0 <= Vf (lit 2933))%Z) by (vm_compute; discriminate).
  assert (H3 : (0 <= Vf (lit 1500))%Z) by (vm_compute; discriminate).
  (* the total of the listing *)
  destruct (add_nonneg A B NA NB HA HB) as (NL1 & VL1 & LA1 & _).
  assert (PL1 : (0 <= Vf (A + B))%Z) by lia.
  destruct (add_nonneg (A + B) (lit 24500) NL1 N1 PL1 H1)
    as (NL2 & VL2 & LA2 & _).
  assert (PL2 : (0 <= Vf (A + B + lit 24500))%Z) by lia.
  destruct (add_nonneg (A + B + lit 24500) (lit 2933) NL2 N2 PL2 H2)
    as (NL3 & VL3 & LA3 & _).
  assert (PL3 : (0 <= Vf (A + B + lit 24500 + lit 2933))%Z) by lia.
  destruct (add_nonneg (A + B + lit 24500 + lit 2933) T NL3 NT PL3 HT)
    as (NL4 & VL4 & _ & _).
  assert (PL4 : (0 <= Vf (A + B + lit 24500 + lit 2933 + T))%Z).
  { rewrite VL4. apply RZ_nonneg. lia. }
  destruct (add_nonneg (A + B + lit 24500 + lit 2933 + T) (lit 1500)
              NL4 N3 PL4 H3) as (NL5 & VL5 & _ & _).
  (* the total of the off-market sale *)
  destruct (add_nonneg A T NA NT HA HT) as (ND1 & VD1 & _ & _).
  assert (PD1 : (0 <= Vf (A + T))%Z) by (rewrite VD1; apply RZ_nonneg; lia).
  destruct (add_nonneg (A + T) (lit 1500) ND1 N3 PD1 H3)
    as (ND2 & VD2 & _ & _).
  (* the listing costs no less *)
  assert (Htotal : (Vf (A + T + lit 1500)
                    <= Vf (A + B + lit 24500 + lit 2933 + T + lit 1500))%Z).
  { rewrite VD2, VL5. apply RZ_monotone.
    apply Z.add_le_mono_r. rewrite VD1, VL4. apply RZ_monotone. lia. }
  (* the two nets *)
  assert (Hfin : (Z.abs (Vf p) < INF)%Z) by (pose proof INF_big; lia).
  destruct (sub_Vf p (A + B + lit 24500 + lit 2933 + T + lit 1500) Np NL5)
    as (NNL & VNL); [now right|].
  destruct (sub_Vf p (A + T + lit 1500) Np ND2) as (NND & VND); [now right|].
  rewrite (leb_Vf _ _ NNL NND), VNL, VND.
  apply Z.leb_le, RZ_monotone. lia.
Qed.

End SellerNetBinary64.

(** C4: for every price [p >= 0] the MLS listing nets no more than the
    off-market sale at the same price.  On binary64 this holds of the
    floats the code computes, for every price that is a float, not negative
    and not infinite (Python's [0 <= p < inf]); it also holds in exact
    arithmetic. *)
Theorem direct_sale_nets_no_less :
  (forall p : float,
      PrimFloat.leb 0 p = true -> PrimFloat.ltb p infinity = true ->
      PrimFloat.leb
        (SellerNet.net (calculate_seller_net p (Some true)))
        (SellerNet.net (calculate_seller_net p (Some false))) = true) /\
  (forall p : Q,
      0 <= p ->
      SellerNet.net (calculate_seller_net p (Some true))
      <= SellerNet.net (calculate_seller_net p (Some false))).
Proof.
  split.
  - intros p Hp Hfinite. apply net_direct_ge_listed_binary64. now split.
  - intros p Hp. rewrite Exact.net_listed, Exact.net_direct.
    (* the listing costs [p * 0.02 + 24500 + 2933] more *)
    assert (Hmore : 0 <= p * 0.02 + 24500 + 2933) by lra.
    lra.
Qed.

Lemma direct_sale_nets_no_less_at_950000 :
  PrimFloat.leb
    (SellerNet.net (calculate_seller_net (num := float) (lit 950000)
                      (Some true)))
    (SellerNet.net (calculate_seller_net (num := float) (lit 950000)
                      (Some false))) = true /\
  SellerNet.net (calculate_seller_net 950000 (Some true))
  <= SellerNet.net (calculate_seller_net 950000 (Some false)).
Proof.
  split.
  - apply (proj1 direct_sale_nets_no_less (lit 950000)); reflexivity.
  - apply (proj2 direct_sale_nets_no_less 950000). discriminate.
Defined.

(** ** C2, C3, C5, C10: the buyer's costs and the flip *)

(** C2: [calculate_flip_profit] called with a [buy_costs] whose
    [total_cash] equals zero raises [ZeroDivisionError]; no dictionary, and
    so no infinite or NaN [roi], comes back.  On binary64 "equals zero" is
    Python's [== 0], which holds of [0.0] and of [-0.0]. *)
Theorem flip_profit_zero_cash_raises :
  (forall (buy_costs : BuyerCosts.t float) (sell_price : float),
      PrimFloat.eqb (BuyerCosts.total_cash buy_costs) 0 = true ->
      calculate_flip_profit buy_costs sell_price = Raise ZeroDivisionError) /\
  (forall (buy_costs : BuyerCosts.t Q) (sell_price : Q),
      BuyerCosts.total_cash buy_costs == 0 ->
      calculate_flip_profit buy_costs sell_price = Raise ZeroDivisionError).
Proof.
  split; intros buy_costs sell_price Hzero.
  - now apply calculate_flip_profit_raises.
  - apply calculate_flip_profit_raises. now apply Exact.is_zero_iff.
Qed.

Lemma flip_profit_zero_cash_raises_at_nothing :
  calculate_flip_profit (nothing_invested float) (lit 1100000)
    = Raise ZeroDivisionError /\
  calculate_flip_profit (nothing_invested Q) 1100000
    = Raise ZeroDivisionError.
Proof.
  split.
  - apply (proj1 flip_profit_zero_cash_raises). reflexivity.
  - apply (proj2 flip_profit_zero_cash_raises). reflexivity.
Defined.



(** C5: the scenario of the specification.  Buying at 900000 with 10
    percent down, 6.0 percent interest, 100000 of remodel and 4 months gives
    a down payment of 90000, a loan of 810000, closing costs of 12400, 129400
    of cash to acquire, holding costs of 22068 and 251468 of cash invested;
    selling at 1100000 then gives a commission of 44000, transfer fees of
    4210, net proceeds of 241790, a profit of -9678 and a return that rounds
    to -3.85 percent.  Every amount is met to the last bit on binary64, and
    exactly in exact arithmetic. *)
Theorem scenario_900000 :
  (exists (b : BuyerCosts.t float) (f : FlipProfit.t float),
      calculate_buyer_costs (lit 900000) (lit 10) (lit 6) (lit 100000)
        (Some (lit 4)) = Ok b /\
      BuyerCosts.down_payment b = lit 90000 /\
      BuyerCosts.loan_amount b = lit 810000 /\
      BuyerCosts.closing_costs b = lit 12400 /\
      BuyerCosts.seller_agent b = lit 27000 /\
      BuyerCosts.cash_to_acquire b = lit 129400 /\
      BuyerCosts.interest b = lit 16200 /\
      BuyerCosts.holding_costs b = lit 22068 /\
      BuyerCosts.total_cash b = lit 251468 /\
      calculate_flip_profit b (lit 1100000) = Ok f /\
      FlipProfit.commission f = lit 44000 /\
      FlipProfit.transfer_fees f = lit 4210 /\
      FlipProfit.net_proceeds f = lit 241790 /\
      FlipProfit.profit f = lit (-9678) /\
      PrimFloat.ltb (lit (-3.855)) (FlipProfit.roi f) = true /\
      PrimFloat.ltb (FlipProfit.roi f) (lit (-3.845)) = true) /\
  (exists (b : BuyerCosts.t Q) (f : FlipProfit.t Q),
      calculate_buyer_costs 900000 10 6 100000 (Some 4) = Ok b /\
      BuyerCosts.down_payment b == 90000 /\
      BuyerCosts.loan_amount b == 810000 /\
      BuyerCosts.closing_costs b == 12400 /\
      BuyerCosts.seller_agent b == 27000 /\
      BuyerCosts.cash_to_acquire b == 129400 /\
      BuyerCosts.interest b == 16200 /\
      BuyerCosts.holding_costs b == 22068 /\
      BuyerCosts.total_cash b == 251468 /\
      calculate_flip_profit b 1100000 = Ok f /\
      FlipProfit.commission f == 44000 /\
      FlipProfit.transfer_fees f == 4210 /\
      FlipProfit.net_proceeds f == 241790 /\
      FlipProfit.profit f == -9678 /\
      -3.855 < FlipProfit.roi f /\
      FlipProfit.roi f < -3.845).
Proof.
  split.
  - do 2 eexists. repeat split.
  - do 2 eexists. repeat split.
Qed.

(** C10: two [buy_costs] that agree on [loan_amount] and [total_cash] give
    the same outcome at every sale price, on every carrier: no other entry
    of [buy_costs] reaches [calculate_flip_profit]. *)
Theorem flip_profit_reads_two_entries
    (num : Type) (arith : PyNum num)
    (b1 b2 : BuyerCosts.t num) (sell_price : num) :
  BuyerCosts.loan_amount b1 = BuyerCosts.loan_amount b2 ->
  BuyerCosts.total_cash b1 = BuyerCosts.total_cash b2 ->
  calculate_flip_profit b1 sell_price = calculate_flip_profit b2 sell_price.
Proof.
  intros Hloan Hcash. unfold calculate_flip_profit.
  now rewrite Hloan, Hcash.
Qed.

Lemma flip_profit_reads_two_entries_example :
  calculate_flip_profit (same_loan_and_cash 1) (lit 1100000)
  = calculate_flip_profit (same_loan_and_cash 2) (lit 1100000).
Proof.
  apply (flip_profit_reads_two_entries float binary64
           (same_loan_and_cash 1) (same_loan_and_cash 2) (lit 1100000));
    reflexivity.
Defined.

(** ** C6: the breakeven price *)

(** C6, counterexample: the profit at the breakeven price is not near zero
    in general, and is not zero at a breakeven price of 1000000.  On
    binary64, buying at 0 with 10 percent down (6 percent interest, no
    remodel, 4 months) ties up 10168; the breakeven price is 10637.09 and
    the flip at that price loses more than 2968, a return below -29 percent.
    Buying at 656000 with 30 percent down (3 percent interest, 268713 of
    remodel, 1 month) gives a breakeven price of exactly 1000000, and the
    flip at it earns more than zero.  In exact arithmetic the first purchase
    loses more than 2968 as well. *)
Lemma profit_at_breakeven_is_not_near_zero :
  (exists (b : BuyerCosts.t float) (s : float) (f : FlipProfit.t float),
      calculate_buyer_costs (lit 0) (lit 10) (lit 6) (lit 0) (Some (lit 4))
      = Ok b /\
      BuyerCosts.total_cash b = lit 10168 /\
      breakeven_price b = Ok s /\
      calculate_flip_profit b s = Ok f /\
      PrimFloat.ltb (FlipProfit.profit f) (lit (-2968)) = true /\
      PrimFloat.ltb (FlipProfit.roi f) (lit (-29)) = true) /\
  (exists (b : BuyerCosts.t float) (s : float) (f : FlipProfit.t float),
      calculate_buyer_costs (lit 656000) (lit 30) (lit 3) (lit 268713)
        (Some (lit 1)) = Ok b /\
      breakeven_price b = Ok s /\
      s = lit 1000000 /\
      calculate_flip_profit b s = Ok f /\
      PrimFloat.ltb (lit 0) (FlipProfit.profit f) = true) /\
  (exists (b : BuyerCosts.t Q) (s : Q) (f : FlipProfit.t Q),
      calculate_buyer_costs 0 10 6 0 (Some 4) = Ok b /\
      BuyerCosts.total_cash b == 10168 /\
      breakeven_price b = Ok s /\
      calculate_flip_profit b s = Ok f /\
      FlipProfit.profit f < -2968 /\
      FlipProfit.roi f < -29).
Proof.
  split; [|split].
  - do 3 eexists. repeat split.
  - do 3 eexists. repeat split.
  - do 3 eexists. repeat split.
Qed.

(** C6: for every [b] with [total_cash] not zero the breakeven price [s] is
    [(total_cash + loan_amount) / (1 - (0.04 + 0.0011 + 3000/1000000))] and
    the flip at that price returns, its profit being the source's formula at
    [s].  In exact arithmetic, with [total_cash] above zero, that profit is
    [s * 3000/1000000 - 3000], which is [0.003 * (s - 1000000)]: the fixed
    resale fee of 3000 against the fraction 3000/1000000 of the sale price
    that the breakeven computation puts in its place.  It is above -3000
    when the loan is not negative, and nothing else bounds it. *)
Theorem profit_at_breakeven_is_fee_gap :
  (forall b : BuyerCosts.t Q,
      0 < BuyerCosts.total_cash b ->
      exists (s : Q) (f : FlipProfit.t Q),
        breakeven_price b = Ok s /\
        s == (BuyerCosts.total_cash b + BuyerCosts.loan_amount b)
             / (1 - (0.04 + 0.0011 + 3000 / 1000000)) /\
        calculate_flip_profit b s = Ok f /\
        FlipProfit.profit f == s * (3000 / 1000000) - 3000 /\
        FlipProfit.profit f == 0.003 * (s - 1000000) /\
        (0 <= BuyerCosts.loan_amount b -> -3000 < FlipProfit.profit f)) /\
  (forall b : BuyerCosts.t float,
      PrimFloat.eqb (BuyerCosts.total_cash b) 0 = false ->
      exists (s : float) (f : FlipProfit.t float),
        breakeven_price b = Ok s /\
        s = quot (BuyerCosts.total_cash b + BuyerCosts.loan_amount b)%py
              (lit 1 - (lit 0.04 + lit 0.0011 + quot (lit 3000) (lit 1000000)))%py /\
        calculate_flip_profit b s = Ok f /\
        FlipProfit.profit f
        = (s - s * lit 0.04 - (s * lit 0.0011 + lit 3000)
           - BuyerCosts.loan_amount b - BuyerCosts.total_cash b)%py).
Proof.
  split.
  - intros b Hcash.
    destruct (Exact.profit_at_breakeven b) as (s & f & Hs & Hval & Hf & Hgap).
    { intros Hzero. rewrite Hzero in Hcash. now apply Qlt_irrefl in Hcash. }
    exists s, f. repeat split; try assumption.
    + rewrite Hgap.
      setoid_replace (3000 / 1000000) with 0.003 by reflexivity. ring.
    + intros Hloan. rewrite Hgap.
      setoid_replace (3000 / 1000000) with 0.003 by reflexivity.
      assert (Hs' : s * 0.9559
                    == BuyerCosts.total_cash b + BuyerCosts.loan_amount b).
      { rewrite Hval. field. }
      lra.
  - intros b Hcash.
    change (is_zero (BuyerCosts.total_cash b) = false) in Hcash.
    assert (Hden : is_zero (num := float) (lit 1 - selling_percent)%py = false)
      by reflexivity.
    rewrite (breakeven_price_returns b Hden).
    destruct (calculate_flip_profit_returns b
                (quot (BuyerCosts.total_cash b + BuyerCosts.loan_amount b)%py
                      (lit 1 - selling_percent)%py) Hcash)
      as (f & Hf & _ & Hcomm & Hfees & Hnet & Hprofit & _).
    eexists. exists f. split; [reflexivity|].
    split; [reflexivity|].
    split; [exact Hf|].
    now rewrite Hprofit, Hnet, Hfees, Hcomm.
Qed.

Lemma profit_at_breakeven_of_scenario :
  0 < BuyerCosts.total_cash scenario_purchase /\
  exists (s : Q) (f : FlipProfit.t Q),
    breakeven_price scenario_purchase = Ok s /\
    s == (BuyerCosts.total_cash scenario_purchase
          + BuyerCosts.loan_amount scenario_purchase)
         / (1 - (0.04 + 0.0011 + 3000 / 1000000)) /\
    calculate_flip_profit scenario_purchase s = Ok f /\
    FlipProfit.profit f == s * (3000 / 1000000) - 3000 /\
    FlipProfit.profit f == 0.003 * (s - 1000000) /\
    (0 <= BuyerCosts.loan_amount scenario_purchase ->
     -3000 < FlipProfit.profit f).
Proof.
  split; [reflexivity|].
  apply (proj1 profit_at_breakeven_is_fee_gap scenario_purchase). reflexivity.
Defined.

(** On binary64 the same purchase breaks even, by the page's computation,
    at 1110438.33; sold at that price it still earns 331.31, the gap of C6
    up to rounding. *)
Example breakeven_of_scenario_binary64 :
  exists (b : BuyerCosts.t float) (s : float) (f : FlipProfit.t float),
    calculate_buyer_costs (lit 900000) (lit 10) (lit 6) (lit 100000)
      (Some (lit 4)) = Ok b /\
    breakeven_price b = Ok s /\
    PrimFloat.ltb (lit 1110438.33) s = true /\
    PrimFloat.ltb s (lit 1110438.34) = true /\
    calculate_flip_profit b s = Ok f /\
    PrimFloat.ltb (lit 331.31) (FlipProfit.profit f) = true /\
    PrimFloat.ltb (FlipProfit.profit f) (lit 331.32) = true.
Proof. do 3 eexists. repeat split. Qed.

(** ** C7, C8, C9: validation, configuration, totality *)

(** C7, counterexample: a negative price, a down payment of 150 percent and
    a negative number of months are not rejected.  On binary64 the seller's
    net for a price of -100000 is -123823, and the buyer's costs for a price
    of -900000 with 150 percent down over -4 months come back with a down
    payment of -1350000 and -1283068 of cash invested. *)
Lemma out_of_domain_inputs_are_computed :
  SellerNet.price
    (calculate_seller_net (num := float) (lit (-100000)) (Some true))
    = lit (-100000) /\
  SellerNet.net
    (calculate_seller_net (num := float) (lit (-100000)) (Some true))
    = lit (-123823) /\
  exists b : BuyerCosts.t float,
    calculate_buyer_costs (lit (-900000)) (lit 150) (lit 6) (lit 100000)
      (Some (lit (-4))) = Ok b /\
    BuyerCosts.purchase_price b = lit (-900000) /\
    BuyerCosts.down_payment b = lit (-1350000) /\
    BuyerCosts.loan_amount b = lit 450000 /\
    BuyerCosts.interest b = lit (-9000) /\
    BuyerCosts.total_cash b = lit (-1283068).
Proof. split; [|split; [|eexists]]; repeat split. Qed.

(** C7: the calculators check no argument against a domain.  On both
    carriers, for every price, percentage, rate, remodel cost and number of
    months, inside the stated domains or not, [calculate_seller_net] and
    [calculate_buyer_costs] return, and the dictionary that comes back is,
    entry by entry (all eight of the seller's, all ten of the buyer's), the
    source's formula on the arguments as given: nothing is rejected and
    nothing is clamped. *)
Theorem calculators_do_not_validate :
  computes_on_any_input float /\ computes_on_any_input Q.
Proof. split; apply computes_on_any_input_holds. Qed.

(** C8, counterexample: the listing agent's rate cannot be supplied by the
    caller.  [calculate_seller_net] takes a price and [is_mls]; at a price
    of 100000 each of the three ways to pass [is_mls] charges 3000, and an
    MLS listing is charged 24500 of preparation, not 25000. *)
Lemma listing_rate_is_not_an_argument :
  SellerNet.listing_agent
    (calculate_seller_net (num := float) (lit 100000) None) = lit 3000 /\
  SellerNet.listing_agent
    (calculate_seller_net (num := float) (lit 100000) (Some true))
    = lit 3000 /\
  SellerNet.listing_agent
    (calculate_seller_net (num := float) (lit 100000) (Some false))
    = lit 3000 /\
  SellerNet.prep_costs
    (calculate_seller_net (num := float) (lit 100000) (Some true))
    = lit 24500.
Proof. repeat split. Qed.

(** C8: on both carriers the rates and fixed amounts are the literals of
    the function bodies in every call: 0.03 for the listing agent, 0.02 for
    the buyer's agent, 24500 of preparation and 2933 of holding for an MLS
    listing, 0.0011 of transfer tax and 1500 of escrow; 0.01 of loan
    origination over fixed closing fees of 4300, 0.03 for the seller's agent
    at acquisition, 1467 a month of holding; 0.04 of commission and 0.0011
    plus 3000 of transfer fees at resale.  The number of months is the one
    value the caller supplies: 4 when left out, and on binary64 the
    scenario's holding costs are 22068 over 4 months and 33102 over 6. *)
Theorem constants_are_fixed_but_months :
  constants_are_literals float /\
  constants_are_literals Q /\
  exists b4 b6 : BuyerCosts.t float,
    calculate_buyer_costs (lit 900000) (lit 10) (lit 6) (lit 100000) None
    = Ok b4 /\
    calculate_buyer_costs (lit 900000) (lit 10) (lit 6) (lit 100000)
      (Some (lit 6)) = Ok b6 /\
    BuyerCosts.holding_costs b4 = lit 22068 /\
    BuyerCosts.holding_costs b6 = lit 33102.
Proof.
  split; [|split].
  - apply constants_are_literals_holds. reflexivity.
  - apply constants_are_literals_holds. reflexivity.
  - do 2 eexists. repeat split.
Qed.

Lemma resale_fees_at_scenario :
  exists f : FlipProfit.t float,
    calculate_flip_profit (same_loan_and_cash 1) (lit 1100000) = Ok f /\
    FlipProfit.commission f = lit 44000 /\
    FlipProfit.transfer_fees f = lit 4210.
Proof.
  eexists. split; [reflexivity|].
  destruct (proj1 (proj2 (proj2 (proj2
              (proj1 constants_are_fixed_but_months))))
              (same_loan_and_cash 1) (lit 1100000) _ eq_refl) as [Hc Ht].
  now rewrite Hc, Ht.
Defined.



(** * The page *)

(** ** The builtin [max] *)

Section MaxFrom.

Context {num : Type} {order : PyOrd num}.

(** [max] invents nothing: what it returns is one of the items. *)
Lemma max_from_is_an_item (first : num) (rest : list num) :
  In (max_from first rest) (first :: rest).
Proof.
  revert first. induction rest as [|item rest IH]; intros first.
  - now left.
  - cbn [max_from fold_left].
    destruct (greater item first).
    + right. apply (IH item).
    + destruct (IH first) as [Hfirst | Hrest].
      * now left.
      * right. now right.
Qed.

End MaxFrom.

Module ExactOrder.

Local Open Scope Q_scope.

Lemma less_iff (x y : Q) : less x y = true <-> x < y.
Proof.
  cbn. rewrite negb_true_iff. split.
  - intros E. apply Qnot_le_lt. intros Hle.
    apply Qle_bool_iff in Hle. congruence.
  - intros Hlt. destruct (Qle_bool y x) eqn:E; [|reflexivity].
    apply Qle_bool_iff in E. now apply Qlt_not_le in Hlt.
Qed.

Lemma less_false_iff (x y : Q) : less x y = false <-> y <= x.
Proof.
  cbn. rewrite negb_false_iff. apply Qle_bool_iff.
Qed.

Lemma greater_iff (x y : Q) : greater x y = true <-> y < x.
Proof. apply less_iff. Qed.

Lemma max_from_ge_first (first : Q) (rest : list Q) :
  first <= max_from first rest.
Proof.
  revert first. induction rest as [|item rest IH]; intros first.
  - apply Qle_refl.
  - cbn [max_from fold_left].
    destruct (greater item first) eqn:E.
    + apply greater_iff in E.
      apply Qle_trans with item; [now apply Qlt_le_weak | apply (IH item)].
    + apply (IH first).
Qed.

(** No item is above what [max] returns. *)
Lemma max_from_ge (first : Q) (rest : list Q) (item : Q) :
  In item (first :: rest) -> item <= max_from first rest.
Proof.
  revert first. induction rest as [|next rest IH]; intros first Hin.
  - destruct Hin as [<- | []]. apply Qle_refl.
  - cbn [max_from fold_left].
    destruct Hin as [<- | [<- | Hin]].
    + destruct (greater next first) eqn:E.
      * apply greater_iff in E.
        apply Qle_trans with next;
          [now apply Qlt_le_weak | apply max_from_ge_first].
      * apply max_from_ge_first.
    + destruct (greater next first) eqn:E.
      * apply max_from_ge_first.
      * apply less_false_iff in E.
        apply Qle_trans with first; [exact E | apply max_from_ge_first].
    + destruct (greater next first); apply IH; now right.
Qed.

(** [max] is the value of whichever item no other item exceeds. *)
Lemma max_from_of_top (first : Q) (rest : list Q) (top : Q) :
  In top (first :: rest) ->
  (forall item, In item (first :: rest) -> item <= top) ->
  max_from first rest == top.
Proof.
  intros Hin Htop. apply Qle_antisym.
  - apply Htop, max_from_is_an_item.
  - now apply max_from_ge.
Qed.

End ExactOrder.

(** ** The seller tab *)

Section SellerTab.

Context {num : Type} {arith : PyNum num} {order : PyOrd num}.

Local Open Scope py_scope.

(** The one division of the seller tab is by the net of the MLS listing. *)
Lemma seller_insights_raises (mls_price o1 o2 o3 : num) :
  is_zero (SellerNet.net (calculate_seller_net mls_price (Some true))) = true ->
  seller_insights mls_price o1 o2 o3 = Raise ZeroDivisionError.
Proof.
  intros E. unfold seller_insights, div. now rewrite E.
Qed.

Lemma seller_insights_returns (mls_price o1 o2 o3 : num) :
  is_zero (SellerNet.net (calculate_seller_net mls_price (Some true))) = false ->
  exists r : SellerInsights.t num,
    seller_insights mls_price o1 o2 o3 = Ok r /\
    SellerInsights.savings r
    = SellerNet.buyer_agent (calculate_seller_net mls_price (Some true))
      + SellerNet.prep_costs (calculate_seller_net mls_price (Some true))
      + SellerNet.holding_costs (calculate_seller_net mls_price (Some true)) /\
    SellerInsights.best_offer r
    = max_from (SellerNet.net (calculate_seller_net o1 (Some false)))
        [SellerNet.net (calculate_seller_net o2 (Some false));
         SellerNet.net (calculate_seller_net o3 (Some false))] /\
    SellerInsights.diff r
    = SellerInsights.best_offer r
      - SellerNet.net (calculate_seller_net mls_price (Some true)) /\
    SellerInsights.timeline_diff r
    = (if less (SellerInsights.diff r) (lit (-10000))
       then days_60_90 else days_21).
Proof.
  intros E. unfold seller_insights, div. rewrite E. cbn [bind].
  eexists. split; [reflexivity|]. cbn. repeat split.
Qed.

End SellerTab.

Module ExactSeller.

Local Open Scope Q_scope.

Import ExactOrder.

(** In exact arithmetic both nets are straight lines in the price. *)
Lemma net_listed_line (price : Q) :
  SellerNet.net (calculate_seller_net price (Some true))
  == 0.9489 * price - 28933.
Proof. Exact.to_Q. ring. Qed.

Lemma net_direct_line (price : Q) :
  SellerNet.net (calculate_seller_net price (Some false))
  == 0.9689 * price - 1500.
Proof. Exact.to_Q. ring. Qed.

Lemma net_direct_monotone (o o' : Q) :
  o <= o' ->
  SellerNet.net (calculate_seller_net o (Some false))
  <= SellerNet.net (calculate_seller_net o' (Some false)).
Proof. intros Ho. rewrite !net_direct_line. lra. Qed.

(** No whole price makes the net of an MLS listing zero. *)
Lemma net_listed_nonzero (z : Z) :
  ~ SellerNet.net (calculate_seller_net (inject_Z z) (Some true)) == 0.
Proof.
  rewrite net_listed_line. intros Hzero.
  assert (Hz : inject_Z z == 289330000 # 9489) by lra.
  unfold Qeq in Hz. cbn [inject_Z Qnum Qden] in Hz. lia.
Qed.

End ExactSeller.

(** ** The buyer/flip tab *)

Section BuyerTab.

Context {num : Type} {arith : PyNum num} {order : PyOrd num}.
Context {literals : Literals num}.
Hypothesis selling_share_nonzero :
  is_zero (sub (lit 1) selling_percent) = false.

Local Open Scope py_scope.

(** The tab divides by the cash invested and by nothing else that can be
    zero. *)
Lemma buyer_insights_raises
    (purchase_price down_pct rate remodel months s1 s2 s3 : num)
    (b : BuyerCosts.t num) :
  calculate_buyer_costs purchase_price down_pct rate remodel (Some months)
  = Ok b ->
  is_zero (BuyerCosts.total_cash b) = true ->
  buyer_insights purchase_price down_pct rate remodel months s1 s2 s3
  = Raise ZeroDivisionError.
Proof.
  intros Hb E. unfold buyer_insights. rewrite Hb. cbn [bind].
  now rewrite (calculate_flip_profit_raises b s1 E).
Qed.

Lemma buyer_insights_returns
    (purchase_price down_pct rate remodel months s1 s2 s3 : num)
    (b : BuyerCosts.t num) :
  calculate_buyer_costs purchase_price down_pct rate remodel (Some months)
  = Ok b ->
  is_zero (BuyerCosts.total_cash b) = false ->
  exists (r : BuyerInsights.t num) (f1 f2 f3 : FlipProfit.t num) (s : num),
    buyer_insights purchase_price down_pct rate remodel months s1 s2 s3
    = Ok r /\
    calculate_flip_profit b s1 = Ok f1 /\
    calculate_flip_profit b s2 = Ok f2 /\
    calculate_flip_profit b s3 = Ok f3 /\
    breakeven_price b = Ok s /\
    BuyerInsights.buy_costs r = b /\
    BuyerInsights.profit1 r = f1 /\
    BuyerInsights.profit2 r = f2 /\
    BuyerInsights.profit3 r = f3 /\
    BuyerInsights.marker_color r
    = [bar_colour (FlipProfit.roi f1); bar_colour (FlipProfit.roi f2);
       bar_colour (FlipProfit.roi f3)] /\
    BuyerInsights.breakeven r = s /\
    BuyerInsights.best_roi r
    = max_from (FlipProfit.roi f1) [FlipProfit.roi f2; FlipProfit.roi f3] /\
    BuyerInsights.best_profit r
    = max_from (FlipProfit.profit f1)
        [FlipProfit.profit f2; FlipProfit.profit f3] /\
    BuyerInsights.deal r = deal_assessment (BuyerInsights.best_roi r).
Proof.
  intros Hb E. unfold buyer_insights. rewrite Hb. cbn [bind].
  destruct (calculate_flip_profit_returns b s1 E) as (f1 & Hf1 & _).
  destruct (calculate_flip_profit_returns b s2 E) as (f2 & Hf2 & _).
  destruct (calculate_flip_profit_returns b s3 E) as (f3 & Hf3 & _).
  rewrite Hf1, Hf2, Hf3, (breakeven_price_returns b selling_share_nonzero).
  cbn [bind]. do 5 eexists. repeat split; reflexivity.
Qed.

End BuyerTab.

Module ExactBuyer.

Local Open Scope Q_scope.

Import ExactOrder.

Lemma exact_selling_share_nonzero :
  is_zero (num := Q) (sub (lit 1) selling_percent) = false.
Proof. reflexivity. Qed.

(** In exact arithmetic the profit is a straight line in the sale price. *)
Lemma profit_line (b : BuyerCosts.t Q) (s : Q) (f : FlipProfit.t Q) :
  calculate_flip_profit b s = Ok f ->
  FlipProfit.profit f
  == 0.9589 * s - 3000 - BuyerCosts.loan_amount b - BuyerCosts.total_cash b /\
  FlipProfit.roi f
  == FlipProfit.profit f / BuyerCosts.total_cash b * 100 /\
  ~ BuyerCosts.total_cash b == 0.
Proof.
  intros Hf.
  destruct (is_zero (BuyerCosts.total_cash b)) eqn:E.
  - now rewrite (calculate_flip_profit_raises b s E) in Hf.
  - destruct (calculate_flip_profit_returns b s E)
      as (f' & Hf' & _ & Hc & Ht & Hn & Hp & Hr).
    rewrite Hf' in Hf. injection Hf as <-.
    split; [|split].
    + rewrite Hp, Hn, Ht, Hc. Exact.to_Q. ring.
    + rewrite Hr. Exact.to_Q. reflexivity.
    + intros Hzero. apply Exact.is_zero_iff in Hzero. congruence.
Qed.

(** With cash invested above zero, the return follows the profit. *)
Lemma roi_follows_profit (cash p p' : Q) :
  0 < cash -> p <= p' -> p / cash * 100 <= p' / cash * 100.
Proof.
  intros Hcash Hp.
  apply Qmult_le_compat_r; [|discriminate].
  apply Qmult_le_compat_r; [exact Hp|].
  apply Qlt_le_weak, Qinv_lt_0_compat, Hcash.
Qed.

(** Inside the stated domains the cash invested is at least the fixed
    closing fees and the fixed monthly costs. *)
Lemma total_cash_lower_bound
    (purchase_price down_pct rate remodel months : Q) (b : BuyerCosts.t Q) :
  0 <= purchase_price -> 0 <= down_pct <= 100 -> 0 <= rate ->
  0 <= remodel -> 0 <= months ->
  calculate_buyer_costs purchase_price down_pct rate remodel (Some months)
  = Ok b ->
  4300 + 1467 * months <= BuyerCosts.total_cash b.
Proof.
  intros Hp [Hd0 Hd100] Hr Hrem Hm Hb.
  destruct (calculate_buyer_costs_returns purchase_price down_pct rate
              remodel (Some months))
    as (b' & Hb' & _ & Hdown & Hloan & Hclose & Hsa & Hcash & Hint & Hhold
        & _ & Htotal).
  rewrite Hb' in Hb. injection Hb as <-.
  assert (Hdownq : BuyerCosts.down_payment b'
                   == purchase_price * (down_pct / 100))
    by (rewrite Hdown; reflexivity).
  assert (Hloanq : BuyerCosts.loan_amount b'
                   == purchase_price * (1 - down_pct / 100))
    by (rewrite Hloan; reflexivity).
  assert (Hfrac : 0 <= down_pct / 100 <= 1).
  { split.
    - apply Qle_shift_div_l; [reflexivity | lra].
    - apply Qle_shift_div_r; [reflexivity | lra]. }
  assert (Hdown0 : 0 <= BuyerCosts.down_payment b').
  { rewrite Hdownq. apply Qmult_le_0_compat; lra. }
  assert (Hloan0 : 0 <= BuyerCosts.loan_amount b').
  { rewrite Hloanq. apply Qmult_le_0_compat; lra. }
  assert (Hint0 : 0 <= BuyerCosts.interest b').
  { rewrite Hint. Exact.to_Q.
    apply Qmult_le_0_compat; [|exact Hm].
    apply Qle_shift_div_l; [reflexivity|].
    setoid_replace (0 * 12) with 0 by ring.
    apply Qmult_le_0_compat; [exact Hloan0|].
    apply Qle_shift_div_l; [reflexivity | lra]. }
  rewrite Htotal, Hcash, Hhold, Hclose, Hsa. Exact.to_Q. cbn [keyword].
  assert (Hsa0 : 0 <= purchase_price * 0.03) by lra.
  assert (Horig : 0 <= BuyerCosts.loan_amount b' * 0.01) by lra.
  lra.
Qed.

End ExactBuyer.

(** ** Properties of the seller tab *)

(** X1: the "Cost Savings (Direct Sale)" metric is, in exact arithmetic, what a
    direct sale at the MLS price would net above the listing. *)
Theorem savings_is_gap_at_listing_price
    (mls_price o1 o2 o3 : Q) (r : SellerInsights.t Q) :
  seller_insights mls_price o1 o2 o3 = Ok r ->
  SellerInsights.savings r
  == SellerNet.net (calculate_seller_net mls_price (Some false))
     - SellerNet.net (calculate_seller_net mls_price (Some true)).
Proof.
  intros Hr.
  destruct (is_zero (SellerNet.net (calculate_seller_net mls_price (Some true))))
    eqn:E.
  - now rewrite (seller_insights_raises mls_price o1 o2 o3 E) in Hr.
  - destruct (seller_insights_returns mls_price o1 o2 o3 E)
      as (r' & Hr' & Hsav & _).
    rewrite Hr' in Hr. injection Hr as <-.
    rewrite Hsav, ExactSeller.net_listed_line, ExactSeller.net_direct_line.
    Exact.to_Q.
    cbv [SellerNet.buyer_agent SellerNet.prep_costs SellerNet.holding_costs].
    ring.
Qed.

Lemma savings_is_gap_on_the_page :
  exists r : SellerInsights.t Q,
    seller_insights 950000 850000 875000 900000 = Ok r /\
    SellerInsights.savings r
    == SellerNet.net (calculate_seller_net 950000 (Some false))
       - SellerNet.net (calculate_seller_net 950000 (Some true)).
Proof.
  eexists. split; [reflexivity|].
  apply (savings_is_gap_at_listing_price 950000 850000 875000 900000).
  reflexivity.
Defined.

(** X2: in exact arithmetic the best offer is the net of the highest of the
    three direct offers. *)
Theorem best_offer_is_highest_offer
    (mls_price o1 o2 o3 : Q) (r : SellerInsights.t Q) :
  seller_insights mls_price o1 o2 o3 = Ok r ->
  exists top : Q,
    In top [o1; o2; o3] /\
    (forall o, In o [o1; o2; o3] -> o <= top) /\
    SellerInsights.best_offer r
    == SellerNet.net (calculate_seller_net top (Some false)).
Proof.
  intros Hr.
  destruct (is_zero (SellerNet.net (calculate_seller_net mls_price (Some true))))
    eqn:E.
  - now rewrite (seller_insights_raises mls_price o1 o2 o3 E) in Hr.
  - destruct (seller_insights_returns mls_price o1 o2 o3 E)
      as (r' & Hr' & _ & Hbest & _).
    rewrite Hr' in Hr. injection Hr as <-.
    assert (Htop : exists top, In top [o1; o2; o3] /\
                     forall o, In o [o1; o2; o3] -> o <= top).
    { destruct (Qlt_le_dec o1 o2), (Qlt_le_dec o2 o3), (Qlt_le_dec o1 o3);
        [exists o3 | exists o3 | exists o2 | exists o2
         | exists o3 | exists o1 | exists o3 | exists o1];
        (split; [cbn; tauto |]);
        intros o [<- | [<- | [<- | []]]]; lra. }
    destruct Htop as (top & Hin & Hmax).
    exists top. split; [exact Hin|]. split; [exact Hmax|].
    rewrite Hbest. apply ExactOrder.max_from_of_top.
    + destruct Hin as [<- | [<- | [<- | []]]]; cbn; tauto.
    + intros item [<- | [<- | [<- | []]]];
        apply ExactSeller.net_direct_monotone, Hmax; cbn; tauto.
Qed.

Lemma best_offer_on_the_page :
  exists (r : SellerInsights.t Q) (top : Q),
    seller_insights 950000 850000 875000 900000 = Ok r /\
    In top [850000; 875000; 900000] /\
    (forall o, In o [850000; 875000; 900000] -> o <= top) /\
    SellerInsights.best_offer r
    == SellerNet.net (calculate_seller_net top (Some false)).
Proof.
  eexists.
  destruct (best_offer_is_highest_offer 950000 850000 875000 900000 _ eq_refl)
    as (top & Hin & Hmax & Hbest).
  exists top. split; [reflexivity|]. now repeat split.
Defined.

(** X3: the seller tab raises [ZeroDivisionError] exactly when the net of the
    MLS listing is zero, whatever the offers.  In exact arithmetic that is
    the one price 289330000/9489; the number inputs of the page deliver
    whole prices, and none of those is it. *)
Theorem seller_tab_division :
  (forall mls_price o1 o2 o3 : float,
      seller_insights mls_price o1 o2 o3 = Raise ZeroDivisionError <->
      PrimFloat.eqb
        (SellerNet.net (calculate_seller_net mls_price (Some true))) 0
      = true) /\
  (forall mls_price o1 o2 o3 : Q,
      seller_insights mls_price o1 o2 o3 = Raise ZeroDivisionError <->
      mls_price == 289330000 # 9489) /\
  (forall (mls_price : Z) (o1 o2 o3 : Q),
      exists r : SellerInsights.t Q,
        seller_insights (inject_Z mls_price) o1 o2 o3 = Ok r).
Proof.
  split; [|split].
  - intros mls_price o1 o2 o3. split.
    + intros Hraise.
      change (is_zero
                (SellerNet.net (calculate_seller_net mls_price (Some true)))
              = true).
      destruct (is_zero
                  (SellerNet.net (calculate_seller_net mls_price (Some true))))
        eqn:E; [reflexivity|].
      destruct (seller_insights_returns mls_price o1 o2 o3 E)
        as (r & Hr & _). congruence.
    + intros E. apply seller_insights_raises. exact E.
  - intros mls_price o1 o2 o3. split.
    + intros Hraise.
      destruct (is_zero
                  (SellerNet.net (calculate_seller_net mls_price (Some true))))
        eqn:E.
      * apply Exact.is_zero_iff in E.
        rewrite ExactSeller.net_listed_line in E. lra.
      * destruct (seller_insights_returns mls_price o1 o2 o3 E)
          as (r & Hr & _). congruence.
    + intros Hprice. apply seller_insights_raises, Exact.is_zero_iff.
      rewrite ExactSeller.net_listed_line, Hprice. reflexivity.
  - intros mls_price o1 o2 o3.
    destruct (seller_insights_returns (inject_Z mls_price) o1 o2 o3)
      as (r & Hr & _).
    + apply Exact.is_zero_false, ExactSeller.net_listed_nonzero.
    + now exists r.
Qed.

(** X5: in exact arithmetic the seller's net is a straight line in the price:
    a dollar more of price is 0.9489 more of net when listed and 0.9689 when
    sold directly, and the net is below zero under a price of
    289330000/9489 (about 30491) when listed and 15000000/9689 (about 1548)
    when sold directly. *)
Theorem seller_net_is_a_line :
  (forall p p' : Q,
      SellerNet.net (calculate_seller_net p' (Some true))
      - SellerNet.net (calculate_seller_net p (Some true))
      == 0.9489 * (p' - p)) /\
  (forall p p' : Q,
      SellerNet.net (calculate_seller_net p' (Some false))
      - SellerNet.net (calculate_seller_net p (Some false))
      == 0.9689 * (p' - p)) /\
  (forall p : Q,
      SellerNet.net (calculate_seller_net p (Some true)) < 0 <->
      p < 289330000 # 9489) /\
  (forall p : Q,
      SellerNet.net (calculate_seller_net p (Some false)) < 0 <->
      p < 15000000 # 9689).
Proof.
  repeat split; intros;
    rewrite ?ExactSeller.net_listed_line, ?ExactSeller.net_direct_line in *;
    lra.
Qed.

(** ** Properties of the buyer/flip tab *)

(** X6: in exact arithmetic the profit of a flip is a straight line in the sale
    price: between two sale prices of the same purchase it moves by 0.9589
    of their difference, so a higher sale price never lowers the profit,
    nor, with cash invested above zero, the return. *)
Theorem profit_is_a_line_in_sale_price
    (b : BuyerCosts.t Q) (s s' : Q) (f f' : FlipProfit.t Q) :
  calculate_flip_profit b s = Ok f ->
  calculate_flip_profit b s' = Ok f' ->
  FlipProfit.profit f' - FlipProfit.profit f == 0.9589 * (s' - s) /\
  (s <= s' -> FlipProfit.profit f <= FlipProfit.profit f') /\
  (0 < BuyerCosts.total_cash b -> s <= s' ->
   FlipProfit.roi f <= FlipProfit.roi f').
Proof.
  intros Hf Hf'.
  destruct (ExactBuyer.profit_line b s f Hf) as (Hp & Hr & _).
  destruct (ExactBuyer.profit_line b s' f' Hf') as (Hp' & Hr' & _).
  split; [|split].
  - rewrite Hp, Hp'. ring.
  - intros Hs. rewrite Hp, Hp'. lra.
  - intros Hcash Hs. rewrite Hr, Hr'.
    apply ExactBuyer.roi_follows_profit; [exact Hcash|].
    rewrite Hp, Hp'. lra.
Qed.

Lemma profit_line_of_scenario :
  exists f f' : FlipProfit.t Q,
    calculate_flip_profit scenario_purchase 1100000 = Ok f /\
    calculate_flip_profit scenario_purchase 1120000 = Ok f' /\
    FlipProfit.profit f' - FlipProfit.profit f
    == 0.9589 * (1120000 - 1100000) /\
    (1100000 <= 1120000 -> FlipProfit.profit f <= FlipProfit.profit f') /\
    (0 < BuyerCosts.total_cash scenario_purchase -> 1100000 <= 1120000 ->
     FlipProfit.roi f <= FlipProfit.roi f').
Proof.
  do 2 eexists. split; [reflexivity|]. split; [reflexivity|].
  apply (profit_is_a_line_in_sale_price scenario_purchase 1100000 1120000);
    reflexivity.
Defined.

(** X8: in exact arithmetic, inputs inside the stated domains (price, rate and
    remodel cost not negative, the down payment between 0 and 100 percent,
    months not negative) always leave at least [4300 + 1467 * months] of
    cash invested, so the buyer/flip tab never divides by zero on them,
    whatever the three sale prices. *)
Theorem buyer_tab_returns_on_valid_inputs
    (purchase_price down_pct rate remodel months s1 s2 s3 : Q) :
  0 <= purchase_price -> 0 <= down_pct <= 100 -> 0 <= rate ->
  0 <= remodel -> 0 <= months ->
  exists r : BuyerInsights.t Q,
    buyer_insights purchase_price down_pct rate remodel months s1 s2 s3
    = Ok r /\
    4300 + 1467 * months
    <= BuyerCosts.total_cash (BuyerInsights.buy_costs r).
Proof.
  intros Hp Hd Hr Hrem Hm.
  destruct (calculate_buyer_costs_returns purchase_price down_pct rate
              remodel (Some months)) as (b & Hb & _).
  pose proof (ExactBuyer.total_cash_lower_bound purchase_price down_pct rate
                remodel months b Hp Hd Hr Hrem Hm Hb) as Hcash.
  destruct (buyer_insights_returns ExactBuyer.exact_selling_share_nonzero
              purchase_price down_pct rate remodel months s1 s2 s3 b Hb)
    as (r & f1 & f2 & f3 & s & Hret & _ & _ & _ & _ & Hcosts & _).
  - apply Exact.is_zero_false. intros Hzero. rewrite Hzero in Hcash. lra.
  - exists r. split; [exact Hret|]. now rewrite Hcosts.
Qed.

Lemma buyer_tab_returns_on_the_page :
  exists r : BuyerInsights.t Q,
    buyer_insights 900000 10 6 100000 4 1100000 1120000 1150000 = Ok r /\
    4300 + 1467 * 4 <= BuyerCosts.total_cash (BuyerInsights.buy_costs r).
Proof.
  apply (buyer_tab_returns_on_valid_inputs 900000 10 6 100000 4
           1100000 1120000 1150000); try split; discriminate.
Defined.

(** X9: on binary64 and in exact arithmetic alike, the buyer/flip tab raises
    [ZeroDivisionError] exactly when the cash invested is zero: the three
    flips divide by it, and the divisor of the breakeven price,
    [1 - (0.04 + 0.0011 + 3000 / 1000000)], is not zero. *)
Theorem buyer_tab_division :
  (forall purchase_price down_pct rate remodel months s1 s2 s3 : float,
      exists b : BuyerCosts.t float,
        calculate_buyer_costs purchase_price down_pct rate remodel
          (Some months) = Ok b /\
        (buyer_insights purchase_price down_pct rate remodel months
           s1 s2 s3 = Raise ZeroDivisionError <->
         PrimFloat.eqb (BuyerCosts.total_cash b) 0 = true) /\
        ((exists r, buyer_insights purchase_price down_pct rate remodel
                      months s1 s2 s3 = Ok r) <->
         PrimFloat.eqb (BuyerCosts.total_cash b) 0 = false)) /\
  (forall purchase_price down_pct rate remodel months s1 s2 s3 : Q,
      exists b : BuyerCosts.t Q,
        calculate_buyer_costs purchase_price down_pct rate remodel
          (Some months) = Ok b /\
        (buyer_insights purchase_price down_pct rate remodel months
           s1 s2 s3 = Raise ZeroDivisionError <->
         BuyerCosts.total_cash b == 0) /\
        ((exists r, buyer_insights purchase_price down_pct rate remodel
                      months s1 s2 s3 = Ok r) <->
         ~ BuyerCosts.total_cash b == 0)).
Proof.
  assert (Hfloat : is_zero (num := float) (sub (lit 1) selling_percent)
                   = false) by reflexivity.
  split.
  - intros purchase_price down_pct rate remodel months s1 s2 s3.
    destruct (calculate_buyer_costs_returns purchase_price down_pct rate
                remodel (Some months)) as (b & Hb & _).
    exists b. split; [exact Hb|].
    change (PrimFloat.eqb (BuyerCosts.total_cash b) 0)
      with (is_zero (BuyerCosts.total_cash b)).
    destruct (is_zero (BuyerCosts.total_cash b)) eqn:E.
    + pose proof (buyer_insights_raises purchase_price down_pct rate remodel
                    months s1 s2 s3 b Hb E) as Hraise.
      split; [tauto|]. split; [|discriminate].
      intros (r & Hr). congruence.
    + destruct (buyer_insights_returns Hfloat purchase_price down_pct rate
                  remodel months s1 s2 s3 b Hb E) as (r & f1 & f2 & f3 & s & Hr & _).
      split; [split; [congruence | discriminate]|].
      split; [reflexivity | intros _; now exists r].
  - intros purchase_price down_pct rate remodel months s1 s2 s3.
    destruct (calculate_buyer_costs_returns purchase_price down_pct rate
                remodel (Some months)) as (b & Hb & _).
    exists b. split; [exact Hb|].
    rewrite <- Exact.is_zero_iff.
    destruct (is_zero (BuyerCosts.total_cash b)) eqn:E.
    + pose proof (buyer_insights_raises purchase_price down_pct rate remodel
                    months s1 s2 s3 b Hb E) as Hraise.
      split; [tauto|]. split; [|congruence].
      intros (r & Hr). congruence.
    + destruct (buyer_insights_returns ExactBuyer.exact_selling_share_nonzero
                  purchase_price down_pct rate remodel months s1 s2 s3 b Hb E)
        as (r & f1 & f2 & f3 & s & Hr & _).
      split; [split; [congruence | discriminate]|].
      split; [discriminate | intros _; now exists r].
Qed.

Module ExactChart.

Local Open Scope Q_scope.

Lemma bar_is_red (roi : Q) : bar_colour roi = red <-> roi < 0.
Proof.
  unfold bar_colour.
  destruct (less roi (lit 0)) eqn:E0.
  - apply ExactOrder.less_iff in E0. tauto.
  - apply ExactOrder.less_false_iff in E0. cbn in E0.
    destruct (greater roi (lit 15)); (split; [discriminate | intros H; lra]).
Qed.

Lemma bar_is_green (roi : Q) : bar_colour roi = green <-> 15 < roi.
Proof.
  unfold bar_colour.
  destruct (less roi (lit 0)) eqn:E0.
  - apply ExactOrder.less_iff in E0. cbn in E0.
    split; [discriminate | intros H15; lra].
  - rewrite <- (ExactOrder.greater_iff roi 15).
    change (lit 15) with 15.
    destruct (greater roi 15); split; congruence.
Qed.

Lemma deal_is_warning (best : Q) : deal_assessment best = WARNING <-> best < 0.
Proof.
  unfold deal_assessment.
  destruct (less best (lit 0)) eqn:E0.
  - apply ExactOrder.less_iff in E0. tauto.
  - apply ExactOrder.less_false_iff in E0. cbn in E0.
    destruct (less best (lit 10)); [|destruct (less best (lit 20))];
      (split; [discriminate | intros H; lra]).
Qed.

Lemma deal_is_strong (best : Q) :
  deal_assessment best = STRONG_DEAL <-> 20 <= best.
Proof.
  unfold deal_assessment.
  destruct (less best (lit 0)) eqn:E0;
    [apply ExactOrder.less_iff in E0; cbn in E0;
     split; [discriminate | intros H; lra]|].
  destruct (less best (lit 10)) eqn:E10;
    [apply ExactOrder.less_iff in E10; cbn in E10;
     split; [discriminate | intros H; lra]|].
  destruct (less best (lit 20)) eqn:E20.
  - apply ExactOrder.less_iff in E20. cbn in E20.
    split; [discriminate | intros H; lra].
  - apply ExactOrder.less_false_iff in E20. tauto.
Qed.

Lemma deal_is_decent_or_strong (best : Q) :
  10 <= best ->
  deal_assessment best = DECENT_DEAL \/ deal_assessment best = STRONG_DEAL.
Proof.
  intros Hbest. unfold deal_assessment.
  destruct (less best (lit 0)) eqn:E0;
    [apply ExactOrder.less_iff in E0; cbn in E0; lra|].
  destruct (less best (lit 10)) eqn:E10;
    [apply ExactOrder.less_iff in E10; cbn in E10; lra|].
  destruct (less best (lit 20)); tauto.
Qed.

End ExactChart.

(** X10: in exact arithmetic the assessment and the chart agree: the page warns
    of negative returns exactly when all three bars are red, a green bar
    (a return above 15) means the deal is assessed as decent or strong, and
    a strong deal has a green bar. *)
Theorem assessment_agrees_with_chart
    (purchase_price down_pct rate remodel months s1 s2 s3 : Q)
    (r : BuyerInsights.t Q) :
  buyer_insights purchase_price down_pct rate remodel months s1 s2 s3
  = Ok r ->
  (BuyerInsights.deal r = WARNING <->
   BuyerInsights.marker_color r = [red; red; red]) /\
  (In green (BuyerInsights.marker_color r) ->
   BuyerInsights.deal r = DECENT_DEAL \/ BuyerInsights.deal r = STRONG_DEAL) /\
  (BuyerInsights.deal r = STRONG_DEAL ->
   In green (BuyerInsights.marker_color r)).
Proof.
  intros Hr.
  destruct (calculate_buyer_costs_returns purchase_price down_pct rate
              remodel (Some months)) as (b & Hb & _).
  destruct (is_zero (BuyerCosts.total_cash b)) eqn:E.
  { now rewrite (buyer_insights_raises purchase_price down_pct rate remodel
                   months s1 s2 s3 b Hb E) in Hr. }
  destruct (buyer_insights_returns ExactBuyer.exact_selling_share_nonzero
              purchase_price down_pct rate remodel months s1 s2 s3 b Hb E)
    as (r' & f1 & f2 & f3 & s & Hr' & _ & _ & _ & _ & _ & _ & _ & _
        & Hcol & _ & Hbest & _ & Hdeal).
  rewrite Hr' in Hr. injection Hr as <-.
  rewrite Hdeal, Hcol, Hbest.
  set (roi1 := FlipProfit.roi f1). set (roi2 := FlipProfit.roi f2).
  set (roi3 := FlipProfit.roi f3).
  pose proof (ExactOrder.max_from_ge roi1 [roi2; roi3]) as Hge.
  pose proof (max_from_is_an_item roi1 [roi2; roi3]) as Hitem.
  set (best := max_from roi1 [roi2; roi3]) in *.
  assert (H1 : roi1 <= best) by (apply Hge; cbn; tauto).
  assert (H2 : roi2 <= best) by (apply Hge; cbn; tauto).
  assert (H3 : roi3 <= best) by (apply Hge; cbn; tauto).
  split; [|split].
  - rewrite ExactChart.deal_is_warning. split.
    + intros Hneg.
      assert (C1 : bar_colour roi1 = red)
        by (apply ExactChart.bar_is_red; lra).
      assert (C2 : bar_colour roi2 = red)
        by (apply ExactChart.bar_is_red; lra).
      assert (C3 : bar_colour roi3 = red)
        by (apply ExactChart.bar_is_red; lra).
      now rewrite C1, C2, C3.
    + intros Hred. injection Hred as C1 C2 C3.
      apply ExactChart.bar_is_red in C1, C2, C3.
      destruct Hitem as [<- | [<- | [<- | []]]]; assumption.
  - intros [C | [C | [C | []]]];
      apply ExactChart.bar_is_green in C;
      apply ExactChart.deal_is_decent_or_strong; lra.
  - intros Hstrong. apply ExactChart.deal_is_strong in Hstrong.
    destruct Hitem as [Hi | [Hi | [Hi | []]]]; rewrite <- Hi in Hstrong;
      [left | right; left | right; right; left];
      apply ExactChart.bar_is_green; lra.
Qed.

Lemma assessment_agrees_on_the_page :
  exists r : BuyerInsights.t Q,
    buyer_insights 900000 10 6 100000 4 1100000 1120000 1150000 = Ok r /\
    (BuyerInsights.deal r = WARNING <->
     BuyerInsights.marker_color r = [red; red; red]) /\
    (In green (BuyerInsights.marker_color r) ->
     BuyerInsights.deal r = DECENT_DEAL \/
     BuyerInsights.deal r = STRONG_DEAL) /\
    (BuyerInsights.deal r = STRONG_DEAL ->
     In green (BuyerInsights.marker_color r)).
Proof.
  eexists. split; [reflexivity|].
  apply (assessment_agrees_with_chart 900000 10 6 100000 4
           1100000 1120000 1150000).
  reflexivity.
Defined.

(** X11: in exact arithmetic, with cash invested above zero the best ROI and the
    best profit that the assessment prints side by side belong to one and
    the same sale scenario: the best ROI is the best profit over the cash
    invested, times 100. *)
Theorem best_roi_is_roi_of_best_profit
    (purchase_price down_pct rate remodel months s1 s2 s3 : Q)
    (r : BuyerInsights.t Q) :
  buyer_insights purchase_price down_pct rate remodel months s1 s2 s3
  = Ok r ->
  0 < BuyerCosts.total_cash (BuyerInsights.buy_costs r) ->
  BuyerInsights.best_roi r
  == BuyerInsights.best_profit r
     / BuyerCosts.total_cash (BuyerInsights.buy_costs r) * 100.
Proof.
  intros Hr Hcash.
  destruct (calculate_buyer_costs_returns purchase_price down_pct rate
              remodel (Some months)) as (b & Hb & _).
  destruct (is_zero (BuyerCosts.total_cash b)) eqn:E.
  { now rewrite (buyer_insights_raises purchase_price down_pct rate remodel
                   months s1 s2 s3 b Hb E) in Hr. }
  destruct (buyer_insights_returns ExactBuyer.exact_selling_share_nonzero
              purchase_price down_pct rate remodel months s1 s2 s3 b Hb E)
    as (r' & f1 & f2 & f3 & s & Hr' & Hf1 & Hf2 & Hf3 & _ & Hcosts & _ & _ & _
        & _ & _ & Hbest & Hprofit & _).
  rewrite Hr' in Hr. injection Hr as <-.
  rewrite Hcosts in *. rewrite Hbest, Hprofit.
  destruct (ExactBuyer.profit_line b s1 f1 Hf1) as (_ & R1 & _).
  destruct (ExactBuyer.profit_line b s2 f2 Hf2) as (_ & R2 & _).
  destruct (ExactBuyer.profit_line b s3 f3 Hf3) as (_ & R3 & _).
  set (p1 := FlipProfit.profit f1) in *.
  set (p2 := FlipProfit.profit f2) in *.
  set (p3 := FlipProfit.profit f3) in *.
  pose proof (ExactOrder.max_from_ge p1 [p2; p3]) as Hge.
  pose proof (max_from_is_an_item p1 [p2; p3]) as Hitem.
  set (best := max_from p1 [p2; p3]) in *.
  assert (H1 : p1 <= best) by (apply Hge; cbn; tauto).
  assert (H2 : p2 <= best) by (apply Hge; cbn; tauto).
  assert (H3 : p3 <= best) by (apply Hge; cbn; tauto).
  pose proof (ExactBuyer.roi_follows_profit (BuyerCosts.total_cash b)
                p1 best Hcash H1) as L1.
  pose proof (ExactBuyer.roi_follows_profit (BuyerCosts.total_cash b)
                p2 best Hcash H2) as L2.
  pose proof (ExactBuyer.roi_follows_profit (BuyerCosts.total_cash b)
                p3 best Hcash H3) as L3.
  apply Qle_antisym.
  - destruct (max_from_is_an_item (FlipProfit.roi f1)
                [FlipProfit.roi f2; FlipProfit.roi f3])
      as [<- | [<- | [<- | []]]]; [rewrite R1 | rewrite R2 | rewrite R3];
      assumption.
  - destruct Hitem as [Hi | [Hi | [Hi | []]]]; rewrite <- Hi;
      [rewrite <- R1 | rewrite <- R2 | rewrite <- R3];
      apply ExactOrder.max_from_ge; cbn; tauto.
Qed.

Lemma best_roi_on_the_page :
  exists r : BuyerInsights.t Q,
    buyer_insights 900000 10 6 100000 4 1100000 1120000 1150000 = Ok r /\
    BuyerInsights.best_roi r
    == BuyerInsights.best_profit r
       / BuyerCosts.total_cash (BuyerInsights.buy_costs r) * 100.
Proof.
  eexists. split; [reflexivity|].
  apply (best_roi_is_roi_of_best_profit 900000 10 6 100000 4
           1100000 1120000 1150000); reflexivity.
Defined.

(** X12: in exact arithmetic, at the two ends of the down payment: with 100
    percent down there is no loan, no interest, and the closing costs are
    the fixed 4300; with nothing down the loan is the whole price and its
    origination fee a hundredth of it. *)
Theorem down_payment_at_its_bounds
    (purchase_price rate remodel : Q) (months : option Q) :
  (exists b : BuyerCosts.t Q,
      calculate_buyer_costs purchase_price 100 rate remodel months = Ok b /\
      BuyerCosts.down_payment b == purchase_price /\
      BuyerCosts.loan_amount b == 0 /\
      BuyerCosts.interest b == 0 /\
      BuyerCosts.closing_costs b == 4300) /\
  (exists b : BuyerCosts.t Q,
      calculate_buyer_costs purchase_price 0 rate remodel months = Ok b /\
      BuyerCosts.down_payment b == 0 /\
      BuyerCosts.loan_amount b == purchase_price /\
      BuyerCosts.closing_costs b == purchase_price * 0.01 + 4300).
Proof.
  split.
  - destruct (calculate_buyer_costs_returns purchase_price 100 rate remodel
                months)
      as (b & Hb & _ & Hdown & Hloan & Hclose & _ & _ & Hint & _).
    exists b. split; [exact Hb|].
    assert (Hloan0 : BuyerCosts.loan_amount b == 0)
      by (rewrite Hloan; Exact.to_Q; field).
    repeat split.
    + rewrite Hdown. Exact.to_Q. field.
    + exact Hloan0.
    + rewrite Hint. Exact.to_Q. rewrite Hloan0. field.
    + rewrite Hclose. Exact.to_Q. rewrite Hloan0. ring.
  - destruct (calculate_buyer_costs_returns purchase_price 0 rate remodel
                months)
      as (b & Hb & _ & Hdown & Hloan & Hclose & _).
    exists b. split; [exact Hb|].
    assert (Hloanp : BuyerCosts.loan_amount b == purchase_price)
      by (rewrite Hloan; Exact.to_Q; field).
    repeat split.
    + rewrite Hdown. Exact.to_Q. field.
    + exact Hloanp.
    + rewrite Hclose. Exact.to_Q. rewrite Hloanp. ring.
Qed.

(** ** Properties of the saved properties *)

Lemma pop_in_range (idx : nat) (properties : list property_data) :
  (idx < length properties)%nat ->
  exists data,
    nth_error properties idx = Some data /\
    pop idx properties
    = Some (data, firstn idx properties ++ skipn (S idx) properties).
Proof.
  intros Hidx. unfold pop.
  destruct (nth_error properties idx) as [data|] eqn:E.
  - now exists data.
  - apply nth_error_None in E. lia.
Qed.

(** X13: deleting a saved property takes out the entry at that position and no
    other: the list is one shorter, the entries before the position stay
    where they were and the entries after it move up by one.  The position
    past the end is an [IndexError]. *)
Theorem pop_removes_one_position
    (idx : nat) (properties : list property_data) :
  (length properties <= idx)%nat /\ pop idx properties = None \/
  exists data rest,
    pop idx properties = Some (data, rest) /\
    nth_error properties idx = Some data /\
    S (length rest) = length properties /\
    (forall i, (i < idx)%nat -> nth_error rest i = nth_error properties i) /\
    (forall i, (idx <= i)%nat ->
               nth_error rest i = nth_error properties (S i)).
Proof.
  destruct (Nat.lt_ge_cases idx (length properties)) as [Hidx | Hidx].
  - right. destruct (pop_in_range idx properties Hidx) as (data & Hnth & Hpop).
    exists data, (firstn idx properties ++ skipn (S idx) properties).
    split; [exact Hpop|]. split; [exact Hnth|].
    assert (Hfirst : length (firstn idx properties) = idx)
      by (rewrite length_firstn; lia).
    split; [|split].
    + rewrite length_app, Hfirst, length_skipn. lia.
    + intros i Hi. rewrite nth_error_app1 by lia.
      rewrite nth_error_firstn.
      now rewrite (proj2 (Nat.ltb_lt i idx) Hi).
    + intros i Hi. rewrite nth_error_app2 by lia.
      rewrite Hfirst, nth_error_skipn. f_equal. lia.
  - left. split; [exact Hidx|]. unfold pop.
    now rewrite (proj2 (nth_error_None properties idx) Hidx).
Qed.

(** X14: saving a property puts it at the end and leaves the others in place;
    deleting the property just saved gives the list back. *)
Theorem save_then_delete
    (data : property_data) (properties : list property_data) :
  nth_error (save_property data properties) (length properties) = Some data /\
  (forall i, (i < length properties)%nat ->
             nth_error (save_property data properties) i
             = nth_error properties i) /\
  pop (length properties) (save_property data properties)
  = Some (data, properties).
Proof.
  unfold save_property. split; [|split].
  - rewrite nth_error_app2 by lia. now rewrite Nat.sub_diag.
  - intros i Hi. now apply nth_error_app1.
  - unfold pop. rewrite nth_error_app2 by lia. rewrite Nat.sub_diag.
    cbn [nth_error]. f_equal. f_equal.
    rewrite firstn_app, Nat.sub_diag, firstn_all. cbn [firstn].
    rewrite skipn_app, skipn_all2 by lia.
    replace (S (length properties) - length properties)%nat with 1%nat by lia.
    cbn [skipn]. now rewrite !app_nil_r.
Qed.

Lemma enumerate_spec (properties : list property_data) (start : nat)
    (idx : nat) (data : property_data) :
  In (idx, data) (combine (seq start (length properties)) properties) ->
  (start <= idx)%nat /\ nth_error properties (idx - start) = Some data.
Proof.
  revert start. induction properties as [|first rest IH]; intros start Hin.
  - destruct Hin.
  - cbn [length seq combine] in Hin. destruct Hin as [Heq | Hin].
    + injection Heq as <- <-. split; [lia|].
      now rewrite Nat.sub_diag.
    + destruct (IH (S start) Hin) as [Hle Hnth]. split; [lia|].
      replace (idx - start)%nat with (S (idx - S start)) by lia.
      exact Hnth.
Qed.

(** X15: every Delete button of the saved tab works: for each pair the loop
    over [enumerate] renders, [pop] of its index returns, and what it takes
    out is the property the button is rendered beside. *)
Theorem every_delete_button_deletes_its_property
    (properties : list property_data) (idx : nat) (data : property_data) :
  In (idx, data) (enumerate properties) ->
  exists rest,
    pop idx properties = Some (data, rest) /\
    S (length rest) = length properties.
Proof.
  intros Hin. apply enumerate_spec in Hin. destruct Hin as [_ Hnth].
  rewrite Nat.sub_0_r in Hnth.
  destruct (pop_removes_one_position idx properties)
    as [[Hout Hnone] | (data' & rest & Hpop & Hnth' & Hlen & _)].
  - apply nth_error_None in Hout. congruence.
  - exists rest. split; [|exact Hlen]. congruence.
Qed.

Lemma delete_button_of_canyon_oaks :
  exists rest,
    pop 0 [Example.canyon_oaks] = Some (Example.canyon_oaks, rest) /\
    S (length rest) = length [Example.canyon_oaks].
Proof.
  apply (every_delete_button_deletes_its_property
           [Example.canyon_oaks] 0 Example.canyon_oaks).
  now left.
Defined.
